(** * minos/tools/pygame_client.py: room confinement, key synthesis,
      image conversion, depth rescaling, window layout and top-level error
      handling.

    The Python module is embedded shallowly.  Coordinates are Python floats
    read from a CSV file; they are modelled as exact rationals ([Q]), so the
    statements about them are about the arithmetic the code writes down, not
    about IEEE rounding.  Depth images are arrays of IEEE floats and are
    modelled with the Standard Library's [SpecFloat].  Module-level globals are threaded as an explicit state
    record, [random.randint] is driven by an explicit seed, and calls into
    numpy, pandas and pygame are modelled by what those calls do on the
    values this file hands them. *)

From Stdlib Require Import ZArith QArith Qminmax Lia Bool Lqa SpecFloat.
From stdpp Require Import base list strings gmap.

Local Open Scope Z_scope.

(* ===================================================================== *)
(** ** Nine-region partition (lines 194-332) *)
(* ===================================================================== *)

Module Geometry.

(** A position is the three-element list [[x, y, z]] the code indexes with
    [0], [1] and [2]. *)
Record position : Type := Position { p0 : Q; p1 : Q; p2 : Q }.

(** The dict with keys start_x .. end_z. *)
Record region : Type := Region {
  start_x : Q; start_y : Q; start_z : Q;
  end_x : Q; end_y : Q; end_z : Q
}.

(** Python's [a > b] on numbers. *)
Definition Qgtb (a b : Q) : bool := negb (Qle_bool a b).

(** [(s + k*d) if e > s else (s - k*d)] *)
Definition edge (s e d k : Q) : Q :=
  if Qgtb e s then (s + k * d)%Q else (s - k * d)%Q.

Definition calculate_nine_region_bounds (start_position end_position : position)
  : list (list region) :=
  let x_distance := (p0 end_position - p0 start_position)%Q in
  let x_distance_diff := (x_distance / 3)%Q in
  let z_distance := (p2 end_position - p2 start_position)%Q in
  let z_distance_diff := (z_distance / 3)%Q in
  let sx := p0 start_position in
  let sy := p1 start_position in
  let sz := p2 start_position in
  let ex := p0 end_position in
  let ez := p2 end_position in
  let x1 := edge sx ex x_distance_diff 1 in
  let x2 := edge sx ex x_distance_diff 2 in
  let z1 := edge sz ez z_distance_diff 1 in
  let z2 := edge sz ez z_distance_diff 2 in
  let row_0 := [ Region sx sy sz x1 sy z1;
                 Region x1 sy sz x2 sy z1;
                 Region x2 sy sz ex sy z1 ] in
  let row_1 := [ Region sx sy z1 x1 sy z2;
                 Region x1 sy z1 x2 sy z2;
                 Region x2 sy z1 ex sy z2 ] in
  let row_2 := [ Region sx sy z2 x1 sy ez;
                 Region x1 sy z2 x2 sy ez;
                 Region x2 sy z2 ex sy ez ] in
  [row_0; row_1; row_2].

Definition is_within_region (position : position) (region_bounds : region) : bool :=
  Qle_bool (Qmin (start_x region_bounds) (end_x region_bounds)) (p0 position)
  && Qle_bool (Qmin (start_z region_bounds) (end_z region_bounds)) (p2 position)
  && Qle_bool (p0 position) (Qmax (start_x region_bounds) (end_x region_bounds))
  && Qle_bool (p2 position) (Qmax (start_z region_bounds) (end_z region_bounds)).

(** [bounds[i][j]]; [None] stands for Python's IndexError. *)
Definition cell (bounds : list (list region)) (i j : nat) : option region :=
  row ← bounds !! i; row !! j.

(** Outcome of [get_region]: a region number, Python's implicit [None]
    when no test succeeds, or an IndexError from [bounds[i][j]]. *)
Inductive region_result : Type :=
| RegionNo (n : Z)
| RegionNone
| RegionIndexError.

Fixpoint first_region (position : position) (bounds : list (list region))
    (cells : list (nat * nat * Z)) : region_result :=
  match cells with
  | [] => RegionNone
  | (i, j, n) :: rest =>
      match cell bounds i j with
      | None => RegionIndexError
      | Some r => if is_within_region position r then RegionNo n
                  else first_region position bounds rest
      end
  end.

Definition get_region (position : position) (bounds : list (list region))
  : region_result :=
  first_region position bounds
    [ (0%nat, 0%nat, 1); (0%nat, 1%nat, 2); (0%nat, 2%nat, 3);
      (1%nat, 0%nat, 4); (1%nat, 1%nat, 5); (1%nat, 2%nat, 6);
      (2%nat, 0%nat, 7); (2%nat, 1%nat, 8); (2%nat, 2%nat, 9) ].

(** [min(a,b) <= x <= max(a,b)]: one coordinate of [is_within_region]. *)
Definition in_span (a b x : Q) : bool :=
  Qle_bool (Qmin a b) x && Qle_bool x (Qmax a b).

(** The rectangle spanned by two corners in the x-z plane. *)
Definition spanned (s e : position) : region :=
  Region (p0 s) (p1 s) (p2 s) (p0 e) (p1 e) (p2 e).

End Geometry.

(* ===================================================================== *)
(** ** Synthesised key presses (lines 334-419) *)
(* ===================================================================== *)

Module Keys.
Import Geometry.

(** pygame 1.x key codes used by the file. *)
Definition K_a : Z := 97.
Definition K_c : Z := 99.
Definition K_d : Z := 100.
Definition K_q : Z := 113.
Definition K_s : Z := 115.
Definition K_w : Z := 119.
Definition K_x : Z := 120.
Definition K_RIGHT : Z := 275.
Definition K_LEFT : Z := 276.

(** A Python value that is an int or [None]. *)
Definition pyint : Type := option Z.

(** [l[i]] on a Python list: negative indices count from the end, anything
    else out of range is an IndexError ([None]). *)
Definition py_getitem {A} (l : list A) (i : Z) : option A :=
  let n := Z.of_nat (length l) in
  if (0 <=? i) && (i <? n) then l !! Z.to_nat i
  else if (- n <=? i) && (i <? 0) then l !! Z.to_nat (n + i)
  else None.

(** [random.randint(lo, hi)] returns some integer of [lo..hi]; which one is
    fixed here by a seed supplied by the caller. *)
Definition randint (lo hi seed : Z) : Z := lo + seed mod (hi - lo + 1).

Definition actions : list Z := [119; 115; 97; 100; 276; 275].

Definition get_random_action (rotation : bool) (seed : Z) : Z :=
  let rand_no := if rotation then randint 0 5 seed else randint 0 3 seed in
  match py_getitem actions rand_no with
  | Some next_action => next_action
  | None => (* except IndexError *)
      if rotation then 275 (* actions[5] *) else 100 (* actions[3] *)
  end.

(** The motions named in the comments of [get_random_action]. *)
Inductive motion : Type := Forward | Backward | Left | Right | CCW | CW.

Definition code (m : motion) : Z :=
  match m with
  | Forward => 119 | Backward => 115
  | Left => 97 | Right => 100
  | CCW => 276 | CW => 275
  end.

Definition opposite (m : motion) : motion :=
  match m with
  | Forward => Backward | Backward => Forward
  | Left => Right | Right => Left
  | CCW => CW | CW => CCW
  end.

(** The module-level globals. *)
Record globals : Type := Globals {
  previous_action : pyint;
  next_action : pyint;
  rotation_counter : Z;
  reverse_action_taken : bool
}.

Definition initial_globals : globals := Globals (Some 0) (Some 0) 0 false.

Definition reverse_action (previous_action : pyint) : pyint :=
  match previous_action with
  | Some 119 => Some 115
  | Some 115 => Some 119
  | Some 97 => Some 100
  | Some 100 => Some 97
  | Some 276 => Some 275
  | Some 275 => Some 276
  | _ => None
  end.

(** [a == k] for an int-or-None [a] and an int literal [k]. *)
Definition py_eqb (a : pyint) (k : Z) : bool :=
  match a with Some v => v =? k | None => false end.

(** [np.zeros(n, dtype='i')] *)
Definition np_zeros (n : nat) : list Z := replicate n 0.

(** [a[idx] = v] on a one-dimensional numpy array.  An int index selects one
    element (negative indices count from the end, out of range raises
    IndexError, here [None]).  The index [None] is numpy's [newaxis]: the
    target is a view of the whole array and the scalar is broadcast to every
    element. *)
Definition np_setitem (a : list Z) (idx : pyint) (v : Z) : option (list Z) :=
  match idx with
  | None => Some (replicate (length a) v)
  | Some i =>
      let n := Z.of_nat (length a) in
      if (0 <=? i) && (i <? n) then Some (<[Z.to_nat i := v]> a)
      else if (- n <=? i) && (i <? 0) then Some (<[Z.to_nat (n + i) := v]> a)
      else None
  end.

(** [current_position != [0,0,0]] *)
Definition not_origin (p : position) : bool :=
  negb (Qeq_bool (p0 p) 0 && Qeq_bool (p1 p) 0 && Qeq_bool (p2 p) 0).

(** [room_bounds and ... and not is_within_region(...)]; the empty dict is
    [None]. *)
Definition outside_bounds (room_bounds : option region) (p : position) : bool :=
  match room_bounds with
  | None => false
  | Some rb => not_origin p && negb (is_within_region p rb)
  end.

(** The action chosen by the if/elif chain, with the globals it leaves
    (up to, not including, the rotation counter update of line 415). *)
Definition choose_action (g : globals) (seed : Z) (has_collided rotation : bool)
    (confine_to_room current_room : string) (room_bounds : option region)
    (current_position : position) : globals :=
  let previous_action := next_action g in
  let rotation_counter := rotation_counter g in
  if negb (String.eqb confine_to_room "") && negb (String.eqb current_room confine_to_room) then
    if negb (reverse_action_taken g) then
      Globals previous_action (reverse_action previous_action) rotation_counter true
    else
      Globals previous_action previous_action rotation_counter true
  else if outside_bounds room_bounds current_position then
    if negb (reverse_action_taken g) then
      Globals previous_action (reverse_action previous_action) rotation_counter true
    else
      Globals previous_action previous_action rotation_counter true
  else if has_collided then
    Globals previous_action (Some (get_random_action rotation seed)) rotation_counter false
  else
    if py_eqb previous_action 0 then
      Globals previous_action (Some 119) rotation_counter false
    else if (py_eqb previous_action 276 && (rotation_counter mod 2 =? 0))
            || (py_eqb previous_action 275 && (rotation_counter mod 2 =? 0)) then
      Globals previous_action (Some (get_random_action rotation seed)) 0 false
    else
      Globals previous_action previous_action rotation_counter false.

(** Returns the updated globals and the key tuple; [None] in the second
    component is an IndexError raised by line 418 (the globals are already
    updated then). *)
Definition generate_key_press_random (g : globals) (seed : Z)
    (has_collided rotation : bool) (confine_to_room current_room : string)
    (room_bounds : option region) (current_position : position)
  : globals * option (list Z) :=
  let g1 := choose_action g seed has_collided rotation confine_to_room
              current_room room_bounds current_position in
  let g2 :=
    if py_eqb (next_action g1) 275 || py_eqb (next_action g1) 276 then
      Globals (previous_action g1) (next_action g1) (rotation_counter g1 + 1)
              (reverse_action_taken g1)
    else g1 in
  let empty_keys := np_zeros 323 in
  (g2, np_setitem empty_keys (next_action g2) 1).

(** [keys[k]] used as a condition. *)
Definition key_down (keys : list Z) (k : Z) : bool :=
  match py_getitem keys k with
  | Some v => negb (v =? 0)
  | None => false
  end.

(** A tuple with a 1 at index [i] and 0 elsewhere. *)
Definition one_hot (keys : list Z) (i : nat) : Prop :=
  keys !! i = Some 1 /\ forall j : nat, j <> i -> (j < length keys)%nat -> keys !! j = Some 0.

End Keys.

(* ===================================================================== *)
(** ** Image conversion and blitting (lines 47-62) *)
(* ===================================================================== *)

Module Images.

(** A numpy image: shape (H, W) or shape (H, W, C).  Rows are lists of
    pixels; for [Multi] every pixel carries [channels] values. *)
Inductive image : Type :=
| Gray (rows : list (list Z))
| Multi (channels : nat) (rows : list (list (list Z))).

Definition well_shaped (img : image) : Prop :=
  match img with
  | Gray _ => True
  | Multi c rows => Forall (Forall (fun px => length px = c)) rows
  end.

(** [img.shape[0]], [img.shape[1]] (first row taken as the width). *)
Definition height {A} (rows : list (list A)) : nat := length rows.
Definition width {A} (rows : list (list A)) : nat :=
  match rows with [] => 0%nat | r :: _ => length r end.

(** The index list of line 52. *)
Definition bgra_to_rgba : list nat := [2; 1; 0; 3]%nat.

(** One pixel of [img[:, :, idx]]. *)
Definition pick (idx : list nat) (px : list Z) : list Z :=
  omap (fun i => px !! i) idx.

(** [np.dstack([img, img, img, np.ones(img.shape, dtype=np.uint8)*255])]
    at one pixel. *)
Definition gray_pixel (y : Z) : list Z := [y; y; y; 1 * 255].

(** Lines 49-52.  [None] is the IndexError numpy raises when an index of
    the list is out of bounds for the last axis. *)
Definition to_rgba (img : image) : option (list (list (list Z))) :=
  match img with
  | Gray rows => Some (fmap (M:=list) (fmap (M:=list) gray_pixel) rows)
  | Multi c rows =>
      if forallb (fun i => (i <? c)%nat) bgra_to_rgba
      then Some (fmap (M:=list) (fmap (M:=list) (pick bgra_to_rgba)) rows)
      else None
  end.

(** The pixel at row [r], column [c]. *)
Definition pixel_at {A} (rows : list (list A)) (r c : nat) : option A :=
  row ← rows !! r; row !! c.

(** [img.tostring()]: the elements in C order. *)
Definition tostring (rows : list (list (list Z))) : list Z :=
  concat (concat rows).

(** A pygame surface: its size and its pixel buffer. *)
Record surface : Type := Surface { get_size : nat * nat; buffer : list Z }.

(** The display surface as the blits made on it, latest last. *)
Definition display : Type := list ((Z * Z) * surface).

Definition same_size (a b : nat * nat) : bool :=
  (a.1 =? b.1)%nat && (a.2 =? b.2)%nat.

Definition blit_img_to_surf (TMP_SURFS : gmap string surface) (img : image)
    (surf : display) (position : Z * Z) (surf_key : string)
  : option (gmap string surface * display) :=
  img' ← to_rgba img;
  let img_shape := (height img', width img') in
  let TMP_SURF :=
    match TMP_SURFS !! surf_key with
    | Some old => if same_size (get_size old) img_shape then old
                  else Surface img_shape []
    | None => Surface img_shape []
    end in
  (* bv.write(img.tostring()) replaces the buffer of TMP_SURF *)
  let TMP_SURF := Surface (get_size TMP_SURF) (tostring img') in
  Some (<[surf_key := TMP_SURF]> TMP_SURFS, surf ++ [(position, TMP_SURF)]).

End Images.

(* ===================================================================== *)
(** ** Top-level error handling (lines 839-856) *)
(* ===================================================================== *)

Module Main.

Inductive event : Type :=
| PrintLine (text : string)
| SimStart
| GetObservationSpace
| InteractiveLoop
| PrintExc
| SimKill
| VideoWriterClose.

Inductive result (A : Type) : Type :=
| Ok (a : A)
| Raise (exc : string).
Arguments Ok {A} a.
Arguments Raise {A} exc.

(** Computations that log events and may raise. *)
Definition M (A : Type) : Type := list event -> list event * result A.

Definition ret {A} (a : A) : M A := fun tr => (tr, Ok a).
Definition bind {A B} (m : M A) (k : A -> M B) : M B :=
  fun tr => match m tr with
            | (tr', Ok a) => k a tr'
            | (tr', Raise e) => (tr', Raise e)
            end.
Definition emit (e : event) : M unit := fun tr => (tr ++ [e], Ok tt).
Definition lift {A} (r : result A) : M A := fun tr => (tr, r).
(** [try: body / except: handler] with a bare except clause. *)
Definition try_except (body handler : M unit) : M unit :=
  fun tr => match body tr with
            | (tr', Ok a) => (tr', Ok a)
            | (tr', Raise _) => handler tr'
            end.

#[global] Instance M_ret : MRet M := @ret.
#[global] Instance M_bind : MBind M := fun A B k m => bind m k.

(** How the external calls of one session behave: what [sim.start()]
    returns (the truth value of the episode info) or raises, and whether
    [sim.get_observation_space()] and [interactive_loop] raise. *)
Record session : Type := Session {
  start_outcome : result bool;
  observation_space_outcome : result unit;
  interactive_loop_outcome : result unit
}.

Definition try_body (s : session) : M unit :=
  emit (PrintLine "Starting simulator...") ;;
  emit SimStart ;;
  ep_info ← lift (start_outcome s) ;
  if (ep_info : bool) then
    emit GetObservationSpace ;;
    lift (observation_space_outcome s) ;;
    emit (PrintLine "observation_space") ;;
    emit (PrintLine "Simulator started.") ;;
    emit InteractiveLoop ;;
    lift (interactive_loop_outcome s)
  else mret tt.

Definition except_handler : M unit :=
  emit PrintExc ;;
  emit (PrintLine "Error running simulator. Aborting.").

(** Lines 839-856; [video_writer] tells whether VIDEO_WRITER is not None. *)
Definition main_run (s : session) (video_writer : bool) : M unit :=
  try_except (try_body s) except_handler ;;
  emit SimKill ;;
  (if video_writer then emit VideoWriterClose else mret tt).

Definition raises (s : session) : Prop :=
  (exists e, start_outcome s = Raise e) \/
  (start_outcome s = Ok true /\
   ((exists e, observation_space_outcome s = Raise e) \/
    (observation_space_outcome s = Ok tt /\
     exists e, interactive_loop_outcome s = Raise e))).

Definition count_event (e : event -> bool) (tr : list event) : nat :=
  length (filter (fun x => e x = true) tr).

Definition is_start (e : event) : bool :=
  match e with SimStart => true | _ => false end.
Definition is_print_exc (e : event) : bool :=
  match e with PrintExc => true | _ => false end.

End Main.

(* ===================================================================== *)
(** ** Sequences of calls to the key generator *)
(* ===================================================================== *)

Module Walk.
Import Geometry Keys.

(** The arguments of one call of [generate_key_press_random], with the
    random draw of that call. *)
Record call : Type := Call {
  c_seed : Z;
  c_has_collided : bool;
  c_rotation : bool;
  c_confine_to_room : string;
  c_current_room : string;
  c_room_bounds : option region;
  c_current_position : position
}.

Definition step (g : globals) (c : call) : globals * option (list Z) :=
  generate_key_press_random g (c_seed c) (c_has_collided c) (c_rotation c)
    (c_confine_to_room c) (c_current_room c) (c_room_bounds c)
    (c_current_position c).

(** The globals after the calls [cs], made one after the other. *)
Definition run_calls (g : globals) (cs : list call) : globals :=
  foldl (fun g c => (step g c).1) g cs.

(** One of the two confinement tests (lines 380 and 389) succeeds. *)
Definition confined (c : call) : bool :=
  negb (String.eqb (c_confine_to_room c) "")
  && negb (String.eqb (c_current_room c) (c_confine_to_room c))
  || outside_bounds (c_room_bounds c) (c_current_position c).

(** The four translation codes, [actions[0..3]]. *)
Definition translations : list Z := [119; 115; 97; 100].

(** What holds of the globals between calls: the pending action is [None],
    0 or an action code, and it is 0 only while no reverse was taken. *)
Definition module_state (g : globals) : Prop :=
  (next_action g = None \/ exists v, next_action g = Some v /\ v ∈ 0 :: actions)
  /\ (next_action g = Some 0 -> reverse_action_taken g = false).

End Walk.

(* ===================================================================== *)
(** ** Room ids that are not strings *)
(* ===================================================================== *)

Module Rooms.
Import Geometry Keys.

(** A room id as the loop holds it: [row['room_id']] of positions.csv (a
    string, a number, or NaN for an empty cell), later
    [observation['roomInfo']['id']] (a string or [None]). *)
Inductive room_id : Type :=
| RoomStr (s : string)
| RoomNum (q : Q)
| RoomNaN
| RoomNone.

(** Python's [a != b] on such values: NaN differs from everything, itself
    included; values of different kinds differ. *)
Definition py_ne (a b : room_id) : bool :=
  match a, b with
  | RoomStr s, RoomStr t => negb (String.eqb s t)
  | RoomNum x, RoomNum y => negb (Qeq_bool x y)
  | RoomNone, RoomNone => false
  | _, _ => true
  end.

(** The test of line 380. *)
Definition room_exit (confine_to_room current_room : room_id) : bool :=
  py_ne confine_to_room (RoomStr "") && py_ne current_room confine_to_room.

(** [choose_action] and [generate_key_press_random] (lines 376-419) for
    room ids of any kind; on strings they are the functions of [Keys]. *)
Definition choose_action_rooms (g : globals) (seed : Z)
    (has_collided rotation : bool) (confine_to_room current_room : room_id)
    (room_bounds : option region) (current_position : position) : globals :=
  let previous_action := next_action g in
  let rotation_counter := rotation_counter g in
  if room_exit confine_to_room current_room then
    if negb (reverse_action_taken g) then
      Globals previous_action (reverse_action previous_action) rotation_counter true
    else
      Globals previous_action previous_action rotation_counter true
  else if outside_bounds room_bounds current_position then
    if negb (reverse_action_taken g) then
      Globals previous_action (reverse_action previous_action) rotation_counter true
    else
      Globals previous_action previous_action rotation_counter true
  else if has_collided then
    Globals previous_action (Some (get_random_action rotation seed)) rotation_counter false
  else
    if py_eqb previous_action 0 then
      Globals previous_action (Some 119) rotation_counter false
    else if (py_eqb previous_action 276 && (rotation_counter mod 2 =? 0))
            || (py_eqb previous_action 275 && (rotation_counter mod 2 =? 0)) then
      Globals previous_action (Some (get_random_action rotation seed)) 0 false
    else
      Globals previous_action previous_action rotation_counter false.

Definition generate_key_press_random_rooms (g : globals) (seed : Z)
    (has_collided rotation : bool) (confine_to_room current_room : room_id)
    (room_bounds : option region) (current_position : position)
  : globals * option (list Z) :=
  let g1 := choose_action_rooms g seed has_collided rotation confine_to_room
              current_room room_bounds current_position in
  let g2 :=
    if py_eqb (next_action g1) 275 || py_eqb (next_action g1) 276 then
      Globals (previous_action g1) (next_action g1) (rotation_counter g1 + 1)
              (reverse_action_taken g1)
    else g1 in
  let empty_keys := np_zeros 323 in
  (g2, np_setitem empty_keys (next_action g2) 1).

End Rooms.

(* ===================================================================== *)
(** ** One pass of the frame loop up to the quit test (lines 561-576) *)
(* ===================================================================== *)

Module Loop.
Import Geometry Keys Walk Rooms.

(** What the outside world offers during one pass of [while sim.running]:
    the state of the physical keyboard (what [pygame.key.get_pressed()]
    would return), the random draw, and the observation of the previous
    step (before the first step: the room id of the CSV row). *)
Record frame : Type := Frame {
  keyboard : list Z;
  seed : Z;
  has_collided : bool;
  current_room : room_id;
  position_internal : position
}.

(** Lines 570-572: the call to [pygame.key.get_pressed()] is commented out,
    the keys are those of [generate_key_press_random], called with the
    current room as both room arguments and an empty [room_bounds]. *)
Definition read_keys (g : globals) (f : frame) : globals * option (list Z) :=
  generate_key_press_random_rooms g (seed f) (has_collided f) false
    (current_room f) (current_room f) None (position_internal f).

(** Lines 575-576: [if keys[K_q]: break]. *)
Definition breaks_on_q (g : globals) (f : frame) : bool :=
  match (read_keys g f).2 with
  | Some keys => key_down keys K_q
  | None => false
  end.

(** The globals after a run of passes. *)
Definition run_frames (g : globals) (fs : list frame) : globals :=
  foldl (fun g f => (read_keys g f).1) g fs.

(** A call on string room ids that takes the same branch of line 380 as the
    pass does. *)
Definition loop_call (f : frame) : call :=
  let exit := room_exit (current_room f) (current_room f) in
  Call (seed f) (has_collided f) false
       (if exit then "confine" else "") (if exit then "current" else "")
       None (position_internal f).

End Loop.

(* ===================================================================== *)
(** ** What one pass of the loop does with the keys (lines 575-740) *)
(* ===================================================================== *)

Module Dispatch.
Import Keys.

(** Further pygame 1.x key codes. *)
Definition K_n : Z := 110.
Definition K_o : Z := 111.
Definition K_r : Z := 114.
Definition K_UP : Z := 273.
Definition K_DOWN : Z := 274.

(** The branch the pass takes: [if keys[K_q]: break], then the chain
    [if keys[K_o] / elif keys[K_n] / elif keys[K_r] / else]. *)
Inductive branch : Type := Quit | Observe | NextKey | ResetKey | Act.

Definition pass_branch (keys : list Z) : branch :=
  if key_down keys K_q then Quit
  else if key_down keys K_o then Observe
  else if key_down keys K_n then NextKey
  else if key_down keys K_r then ResetKey
  else Act.

(** The X and C handlers sit between the quit test and the chain. *)
Definition writes_start (keys : list Z) : bool :=
  negb (key_down keys K_q) && key_down keys K_x.
Definition writes_end (keys : list Z) : bool :=
  negb (key_down keys K_q) && key_down keys K_c.

(** Lines 716-739: the action name chosen from the keys when no replay is
    running. *)
Definition action_name (keys : list Z) : string :=
  if key_down keys K_w then "forwards"
  else if key_down keys K_s then "backwards"
  else if key_down keys K_LEFT then "turnLeft"
  else if key_down keys K_RIGHT then "turnRight"
  else if key_down keys K_a then "strafeLeft"
  else if key_down keys K_d then "strafeRight"
  else if key_down keys K_UP then "lookUp"
  else if key_down keys K_DOWN then "lookDown"
  else "idle".

(** Who names the action of the else-branch (lines 677-740): with a replay
    running ([args.replay] set) the record of the action trace does (lines
    680-714), otherwise the keys do (lines 715-740). *)
Inductive action_source : Type :=
| FromTrace
| FromKeys (name : string).

Definition chosen_action (replay : bool) (keys : list Z) : action_source :=
  if replay then FromTrace else FromKeys (action_name keys).

(** The simulator action that carries out a motion. *)
Definition motion_action (m : motion) : string :=
  match m with
  | Forward => "forwards" | Backward => "backwards"
  | Left => "strafeLeft" | Right => "strafeRight"
  | CCW => "turnLeft" | CW => "turnRight"
  end.

End Dispatch.

(* ===================================================================== *)
(** ** Window size and episode banner (lines 65-76 and 161-171) *)
(* ===================================================================== *)

Module Window.

(** Lines 161-171 on the size of the display surface: the new size and the
    resized flag. *)
Definition ensure_size (w h rw rh : Z) : (Z * Z) * bool :=
  if (w <? rw) || (h <? rh) then ((Z.max rw w, Z.max rh h), true)
  else ((w, h), false).

(** The keys of [episode_info] the function reads; goal observations are
    opaque here and stand for the responses handed to [display_response]. *)
Record info_dict : Type := EpisodeInfo {
  displayed : option Z;
  goalObservations : option (list nat)
}.

Inductive banner_event : Type :=
| PrintEpisodeInfo
| DisplayGoal (observation : nat).

(** Lines 65-76: the updated dict and what was printed or drawn. *)
Definition display_episode_info (episode_info : info_dict) (show_goals : bool)
  : info_dict * list banner_event :=
  let d := default 0 (displayed episode_info) in
  if d <? 1 then
    let goal :=
      if show_goals then
        match goalObservations episode_info with
        | Some (g :: _) => [DisplayGoal g]
        | _ => []
        end
      else [] in
    (EpisodeInfo (Some (d + 1)) (goalObservations episode_info),
     PrintEpisodeInfo :: goal)
  else (episode_info, []).

(** [n] calls in a row on the same dict, with the events of all of them. *)
Fixpoint display_repeatedly (n : nat) (episode_info : info_dict)
    (show_goals : bool) : info_dict * list banner_event :=
  match n with
  | O => (episode_info, [])
  | S n =>
      let '(e1, ev1) := display_episode_info episode_info show_goals in
      let '(e2, ev2) := display_repeatedly n e1 show_goals in
      (e2, ev1 ++ ev2)
  end.

End Window.

(* ===================================================================== *)
(** ** Shapes of converted images *)
(* ===================================================================== *)

Module Shapes.

(** Every row has [w] pixels. *)
Definition rectangular {A} (w : nat) (rows : list (list A)) : Prop :=
  Forall (fun row => length row = w) rows.

(** The rows of an image, pixels left opaque. *)
Definition row_count (img : Images.image) : nat :=
  match img with
  | Images.Gray rows => length rows
  | Images.Multi _ rows => length rows
  end.

Definition has_width (w : nat) (img : Images.image) : Prop :=
  match img with
  | Images.Gray rows => rectangular w rows
  | Images.Multi _ rows => rectangular w rows
  end.

End Shapes.

(* ===================================================================== *)
(** ** Window layout of [interactive_loop] (lines 429-489) *)
(* ===================================================================== *)

Module Layout.

Definition all_camera_observations : list string :=
  ["color"; "depth"; "normal"; "objectId"; "objectType"; "roomId"; "roomType"].

Definition font_spacing : Z := 20.

(** The exceptions the set-up can raise. *)
Inductive error : Type := AttributeError | ValueError.

(** The fields of [args] the layout reads. *)
Record settings : Type := Settings {
  observations : gmap string bool;
  show_goals : bool;
  height : Z
}.

(** [args.observations.get(obs)] used as a condition. *)
Definition enabled (a : settings) (obs : string) : bool :=
  default false (observations a !! obs).

(** [pygame.Rect(left, top, width, height)] *)
Record rect : Type := Rect { left : Z; top : Z; rect_w : Z; rect_h : Z }.

(** One camera image: its label position, its blit position (both as
    (x, y)) and the shape [(width, height)] of its sensor space. *)
Record placed : Type := Placed {
  obs : string;
  label_position : Z * Z;
  position : Z * Z;
  shape : Z * Z
}.

(** [observation_space.get('sensors').get(obs)] for each name; reading
    [.shape] of a missing space is the AttributeError ([None]). *)
Fixpoint lookup_spaces (sensors : gmap string (Z * Z)) (names : list string)
  : option (list (string * (Z * Z))) :=
  match names with
  | [] => Some []
  | obs :: rest =>
      match sensors !! obs, lookup_spaces sensors rest with
      | Some space, Some spaces => Some ((obs, space) :: spaces)
      | _, _ => None
      end
  end.

(** [max(heights)]; [None] is the ValueError on an empty list. *)
Definition py_max (l : list Z) : option Z :=
  match l with
  | [] => None
  | x :: rest => Some (foldl Z.max x rest)
  end.

(** The loop of lines 450-464 from a given [total_width] and [max_height]:
    the current and goal placements, then the final [total_width] and
    [max_height]. *)
Fixpoint place_row (show_goals : bool) (display_height total_width max_height : Z)
    (spaces : list (string * (Z * Z)))
  : (list placed * list placed) * (Z * Z) :=
  match spaces with
  | [] => (([], []), (total_width, max_height))
  | (obs, (width, height)) :: rest =>
      let curr :=
        Placed obs (total_width, font_spacing * 2)
               (total_width, font_spacing * 3) (width, height) in
      let goal :=
        if show_goals then
          [Placed obs (total_width, display_height + font_spacing * 2)
                  (total_width, display_height + font_spacing * 3)
                  (width, height)]
        else [] in
      let max_height' := if height >? max_height then height else max_height in
      let '((cs, gs), r) :=
        place_row show_goals display_height (total_width + width) max_height'
                  rest in
      ((curr :: cs, goal ++ gs), r)
  end.

Record layout : Type := MkLayout {
  curr : list placed;
  goal : list placed;
  offset_label : Z * Z;
  offset_area : rect;
  forces : option ((Z * Z) * rect);
  map_label : option ((Z * Z) * (Z * Z));
  display_shape : Z * Z
}.

(** [max(min(args.height, 128), 64)] *)
Definition plot_size (a : settings) : Z := Z.max (Z.min (height a) 128) 64.

Definition compute_layout (a : settings) (sensors : gmap string (Z * Z))
  : error + layout :=
  let names := List.filter (enabled a) all_camera_observations in
  match lookup_spaces sensors names with
  | None => inl AttributeError
  | Some spaces =>
      match py_max ((fun s => s.2.2) <$> spaces) with
      | None => inl ValueError
      | Some max_height =>
          let display_height := max_height + font_spacing * 3 in
          let '((cs, gs), (total_width, max_height)) :=
            place_row (show_goals a) display_height 0 max_height spaces in
          let display_height :=
            if show_goals a
            then display_height + (max_height + font_spacing * 3)
            else display_height in
          let plot_size := plot_size a in
          let display_height := display_height + font_spacing in
          let offset_label := (0, display_height) in
          let offset_area :=
            Rect 0 (display_height + font_spacing) plot_size plot_size in
          let next_start_x := plot_size in
          let forces :=
            if enabled a "forces"
            then Some ((next_start_x, display_height),
                       Rect next_start_x (display_height + font_spacing)
                            plot_size plot_size)
            else None in
          let next_start_x :=
            if enabled a "forces" then next_start_x + plot_size
            else next_start_x in
          let map_label :=
            if enabled a "map"
            then Some ((next_start_x, display_height),
                       (next_start_x, display_height + font_spacing))
            else None in
          let display_height := display_height + font_spacing in
          let display_height := display_height + plot_size in
          inr (MkLayout cs gs offset_label offset_area forces map_label
                 (Z.max total_width next_start_x, display_height))
      end
  end.

(** Images set side by side from [x0] on: each starts where the one before
    it ends. *)
Fixpoint tiled (x0 : Z) (ps : list placed) : Prop :=
  match ps with
  | [] => True
  | p :: rest => (position p).1 = x0 /\ tiled (x0 + (shape p).1) rest
  end.

(** The image of [p] lies inside the rectangle [0..w] x [y0..h]. *)
Definition fits (y0 w h : Z) (p : placed) : Prop :=
  0 <= (position p).1 /\ (position p).1 + (shape p).1 <= w
  /\ y0 <= (position p).2 /\ (position p).2 + (shape p).2 <= h.

(** Sensor shapes are not negative. *)
Definition sane (sensors : gmap string (Z * Z)) : Prop :=
  forall obs space, sensors !! obs = Some space -> 0 <= space.1 /\ 0 <= space.2.

End Layout.

(* ===================================================================== *)
(** ** Depth rescaling (lines 141-143) *)
(* ===================================================================== *)

Module Depth.











End Depth.

(* ===================================================================== *)
(** * Properties *)
(* ===================================================================== *)

(** Membership in a literal list. *)
Ltac in_list :=
  repeat first [apply list_elem_of_here | apply list_elem_of_further].

Module GeometryFacts.
Import Geometry.

Lemma in_span_iff (a b x : Q) :
  in_span a b x = true <-> ((a <= x \/ b <= x) /\ (x <= a \/ x <= b))%Q.
Proof.
  unfold in_span.
  rewrite andb_true_iff, !Qle_bool_iff, Q.min_le_iff, Q.max_le_iff.
  tauto.
Qed.

Lemma is_within_region_spans (p : position) (r : region) :
  is_within_region p r
  = in_span (start_x r) (end_x r) (p0 p) && in_span (start_z r) (end_z r) (p2 p).
Proof.
  unfold is_within_region, in_span.
  destruct (Qle_bool (Qmin (start_x r) (end_x r)) (p0 p)),
           (Qle_bool (Qmin (start_z r) (end_z r)) (p2 p)),
           (Qle_bool (p0 p) (Qmax (start_x r) (end_x r))),
           (Qle_bool (p2 p) (Qmax (start_z r) (end_z r))); reflexivity.
Qed.

(** Three spans chained from [s] to [e] through any two intermediate values
    cover the span from [s] to [e]. *)
Lemma span_chain (s e m1 m2 x : Q) :
  in_span s e x = true ->
  in_span s m1 x || in_span m1 m2 x || in_span m2 e x = true.
Proof.
  intros H. apply in_span_iff in H.
  rewrite !orb_true_iff, !in_span_iff.
  destruct (Qlt_le_dec x m1), (Qlt_le_dec x m2); lra.
Qed.

(** Every point of the rectangle spanned by the two corners gets a region
    number between 1 and 9, whatever the order of the corners. *)
Theorem get_region_covers (s e p : position) :
  is_within_region p (spanned s e) = true ->
  exists n, get_region p (calculate_nine_region_bounds s e) = RegionNo n
            /\ 1 <= n <= 9.
Proof.
  rewrite is_within_region_spans. cbn [spanned start_x end_x start_z end_z].
  intros [Hx Hz]%andb_true_iff.
  set (dx := ((p0 e - p0 s) / 3)%Q). set (dz := ((p2 e - p2 s) / 3)%Q).
  pose proof (span_chain _ _ (edge (p0 s) (p0 e) dx 1) (edge (p0 s) (p0 e) dx 2) _ Hx) as Cx.
  pose proof (span_chain _ _ (edge (p2 s) (p2 e) dz 1) (edge (p2 s) (p2 e) dz 2) _ Hz) as Cz.
  unfold get_region, calculate_nine_region_bounds.
  fold dx dz.
  cbn [first_region cell lookup list_lookup mbind option_bind].
  rewrite !is_within_region_spans. cbn [start_x end_x start_z end_z].
  destruct (in_span (p0 s) (edge (p0 s) (p0 e) dx 1) (p0 p)),
           (in_span (edge (p0 s) (p0 e) dx 1) (edge (p0 s) (p0 e) dx 2) (p0 p)),
           (in_span (edge (p0 s) (p0 e) dx 2) (p0 e) (p0 p)),
           (in_span (p2 s) (edge (p2 s) (p2 e) dz 1) (p2 p)),
           (in_span (edge (p2 s) (p2 e) dz 1) (edge (p2 s) (p2 e) dz 2) (p2 p)),
           (in_span (edge (p2 s) (p2 e) dz 2) (p2 e) (p2 p));
    cbn in Cx, Cz |- *; try discriminate; eexists; (split; [reflexivity | lia]).
Qed.

(** With the end corner not below the start corner in x and z, every cell
    of the grid lies inside the spanned rectangle. *)
Lemma cells_inside_forward (s e p : position) (i j : nat) (r : region) :
  (p0 s <= p0 e)%Q -> (p2 s <= p2 e)%Q ->
  cell (calculate_nine_region_bounds s e) i j = Some r ->
  is_within_region p r = true ->
  is_within_region p (spanned s e) = true.
Proof.
  intros Hx Hz Hc.
  rewrite !is_within_region_spans, !andb_true_iff, !in_span_iff.
  cbn [spanned start_x end_x start_z end_z].
  unfold calculate_nine_region_bounds, cell in Hc.
  assert (Dx : (3 * ((p0 e - p0 s) / 3) == p0 e - p0 s)%Q) by field.
  assert (Dz : (3 * ((p2 e - p2 s) / 3) == p2 e - p2 s)%Q) by field.
  revert Hc Dx Dz.
  generalize ((p0 e - p0 s) / 3)%Q as dx, ((p2 e - p2 s) / 3)%Q as dz.
  intros dx dz Hc Dx Dz.
  destruct i as [|[|[|i]]]; cbn in Hc; try discriminate;
    (destruct j as [|[|[|j]]]; cbn in Hc; try discriminate);
    injection Hc as <-; cbn [start_x end_x start_z end_z];
    unfold edge, Qgtb;
    destruct (Qle_bool (p0 e) (p0 s)) eqn:Ex, (Qle_bool (p2 e) (p2 s)) eqn:Ez;
    cbn [negb];
    try (apply Qle_bool_iff in Ex); try (apply Qle_bool_iff in Ez);
    lra.
Qed.

(** C1, reversed corners: with start [3,0,3] and end [0,0,0] the cell
    [bounds[0][0]] spans 3..4 in x and z, so the point (3.5, 0, 3.5), which
    is outside the rectangle spanned by the corners, is given region 1, and
    the grid is not a subdivision of that rectangle. *)
Theorem C1_reversed_corners_leave_rectangle :
  let s := Position 3 0 3 in
  let e := Position 0 0 0 in
  let p := Position (7 # 2) 0 (7 # 2) in
  is_within_region p (spanned s e) = false
  /\ get_region p (calculate_nine_region_bounds s e) = RegionNo 1.
Proof. split; vm_compute; reflexivity. Qed.

End GeometryFacts.

Module KeysFacts.
Import Geometry Keys.

Lemma one_hot_insert (n i : nat) :
  (i < n)%nat -> one_hot (<[i := 1]> (replicate n 0)) i.
Proof.
  intros Hi. split.
  - apply list_lookup_insert_eq. now rewrite length_replicate.
  - intros j Hne Hj. rewrite length_insert, length_replicate in Hj.
    rewrite list_lookup_insert_ne by congruence.
    now apply lookup_replicate_2.
Qed.

Lemma np_setitem_zeros_int (i : Z) :
  0 <= i < 323 ->
  np_setitem (np_zeros 323) (Some i) 1 = Some (<[Z.to_nat i := 1]> (np_zeros 323)).
Proof.
  intros Hi. unfold np_setitem, np_zeros. rewrite length_replicate.
  change (Z.of_nat 323) with 323.
  destruct (0 <=? i) eqn:A, (i <? 323) eqn:B; try reflexivity; lia.
Qed.

Lemma np_setitem_zeros_none :
  np_setitem (np_zeros 323) None 1 = Some (replicate 323 1).
Proof. unfold np_setitem, np_zeros. now rewrite length_replicate. Qed.

(** A key tuple that comes back always has 323 entries. *)
Lemma np_setitem_length (a : list Z) (idx : pyint) (v : Z) (keys : list Z) :
  np_setitem a idx v = Some keys -> length keys = length a.
Proof.
  unfold np_setitem. destruct idx as [i|].
  - repeat case_match; intros [= <-]; now rewrite ?length_insert.
  - intros [= <-]. now rewrite length_replicate.
Qed.

Lemma generate_key_press_random_length g seed hc rot confine room rb pos keys :
  (generate_key_press_random g seed hc rot confine room rb pos).2 = Some keys ->
  length keys = 323%nat.
Proof.
  cbn [generate_key_press_random snd]. intros H%np_setitem_length.
  rewrite H. apply length_replicate.
Qed.

(** The tuple with every entry 1 is not one-hot. *)
Lemma all_ones_not_one_hot (i : nat) : ~ one_hot (replicate 323 1) i.
Proof.
  intros [_ H].
  destruct (decide (i = 0%nat)) as [->|Hi].
  - specialize (H 1%nat ltac:(lia)). rewrite length_replicate in H.
    specialize (H ltac:(lia)). discriminate H.
  - specialize (H 0%nat ltac:(lia)). rewrite length_replicate in H.
    specialize (H ltac:(lia)). discriminate H.
Qed.

(** What [reverse_action] answers on the six codes, and only there. *)
Lemma reverse_action_code (m : motion) :
  reverse_action (Some (code m)) = Some (code (opposite m)).
Proof. destruct m; reflexivity. Qed.

Lemma actions_code (a : Z) : a ∈ actions <-> exists m, a = code m.
Proof.
  unfold actions. split.
  - rewrite !elem_of_cons, elem_of_nil.
    intros [->|[->|[->|[->|[->|[->|[]]]]]]];
      [exists Forward | exists Backward | exists Left | exists Right
       | exists CCW | exists CW]; reflexivity.
  - intros [m ->]. destruct m; cbn; in_list.
Qed.

Lemma reverse_action_Some (a : pyint) (b : Z) :
  reverse_action a = Some b -> exists m, a = Some (code m) /\ b = code (opposite m).
Proof.
  destruct a as [a|]; [|discriminate].
  destruct (decide (a = 119)) as [->|]; [intros [= <-]; now exists Forward|].
  destruct (decide (a = 115)) as [->|]; [intros [= <-]; now exists Backward|].
  destruct (decide (a = 97)) as [->|]; [intros [= <-]; now exists Left|].
  destruct (decide (a = 100)) as [->|]; [intros [= <-]; now exists Right|].
  destruct (decide (a = 276)) as [->|]; [intros [= <-]; now exists CCW|].
  destruct (decide (a = 275)) as [->|]; [intros [= <-]; now exists CW|].
  unfold reverse_action.
  repeat (match goal with |- context [match ?x with _ => _ end] => destruct x end;
          try discriminate; try lia).
Qed.

(** The two confinement tests of lines 380 and 389. *)
Lemma confinement_step g seed hc rot confine room rb pos :
  negb (String.eqb confine "") && negb (String.eqb room confine)
    || outside_bounds rb pos = true ->
  choose_action g seed hc rot confine room rb pos
  = Globals (next_action g)
            (if reverse_action_taken g then next_action g
             else reverse_action (next_action g))
            (rotation_counter g) true.
Proof.
  intros H. unfold choose_action.
  destruct (negb (String.eqb confine "") && negb (String.eqb room confine)) eqn:E1.
  - now destruct (reverse_action_taken g).
  - cbn in H. rewrite H. now destruct (reverse_action_taken g).
Qed.

Lemma generate_key_press_random_keys g seed hc rot confine room rb pos :
  (generate_key_press_random g seed hc rot confine room rb pos).2
  = np_setitem (np_zeros 323)
      (next_action (generate_key_press_random g seed hc rot confine room rb pos).1) 1
  /\ next_action (generate_key_press_random g seed hc rot confine room rb pos).1
     = next_action (choose_action g seed hc rot confine room rb pos)
  /\ previous_action (generate_key_press_random g seed hc rot confine room rb pos).1
     = next_action g
  /\ reverse_action_taken (generate_key_press_random g seed hc rot confine room rb pos).1
     = reverse_action_taken (choose_action g seed hc rot confine room rb pos).
Proof.
  cbn [generate_key_press_random fst snd].
  set (g1 := choose_action _ _ _ _ _ _ _ _).
  assert (previous_action g1 = next_action g) as Hp.
  { unfold g1, choose_action. repeat case_match; reflexivity. }
  destruct (py_eqb (next_action g1) 275 || py_eqb (next_action g1) 276); auto.
Qed.

(** An int action inside the array is encoded one-hot. *)
Lemma keys_one_hot_int g seed hc rot confine room rb pos (i : Z) :
  next_action (generate_key_press_random g seed hc rot confine room rb pos).1 = Some i ->
  0 <= i < 323 ->
  exists keys,
    (generate_key_press_random g seed hc rot confine room rb pos).2 = Some keys
    /\ one_hot keys (Z.to_nat i).
Proof.
  intros Hn Hi.
  destruct (generate_key_press_random_keys g seed hc rot confine room rb pos)
    as (Hk & _). rewrite Hn, np_setitem_zeros_int in Hk by done.
  eexists; split; [exact Hk|]. apply one_hot_insert. lia.
Qed.

Lemma code_range (m : motion) : 0 <= code m < 323.
Proof. destruct m; cbn; lia. Qed.

(** C3: on the six action codes [reverse_action] yields the code of the
    opposite motion (forward/backward, left/right, CCW/CW), and applying it
    twice gives the action back. *)
Theorem C3_reverse_action_involution (a : Z) :
  a ∈ actions ->
  exists m, a = code m
    /\ reverse_action (Some a) = Some (code (opposite m))
    /\ reverse_action (reverse_action (Some a)) = Some a.
Proof.
  intros [m ->]%actions_code. exists m.
  rewrite !reverse_action_code. repeat split. now destruct m.
Qed.

Lemma C3_reverse_action_involution_witness :
  exists m, 119 = code m
    /\ reverse_action (Some 119) = Some (code (opposite m))
    /\ reverse_action (reverse_action (Some 119)) = Some 119.
Proof. apply (C3_reverse_action_involution 119). apply list_elem_of_here. Defined.

(** A pending action among the six codes is reversed on exit: outside a
    non-empty [room_bounds], away from the origin and with no reverse taken
    on the previous call, the chosen action is [reverse_action] of the
    pending one and the tuple is one-hot at the opposite code; a following
    call made while still outside returns the same tuple. *)
Lemma exit_reverses_pending_code g seed hc rot confine room bounds pos :
  outside_bounds (Some bounds) pos = true ->
  reverse_action_taken g = false ->
  let r1 := generate_key_press_random g seed hc rot confine room (Some bounds) pos in
  previous_action r1.1 = next_action g
  /\ next_action r1.1 = reverse_action (next_action g)
  /\ r1.2 = np_setitem (np_zeros 323) (reverse_action (next_action g)) 1
  /\ (forall m, next_action g = Some (code m) ->
        exists keys, r1.2 = Some keys /\ one_hot keys (Z.to_nat (code (opposite m))))
  /\ forall seed' hc' rot' confine' room' bounds' pos',
       outside_bounds (Some bounds') pos' = true ->
       let r2 := generate_key_press_random r1.1 seed' hc' rot' confine' room'
                   (Some bounds') pos' in
       next_action r2.1 = next_action r1.1 /\ r2.2 = r1.2.
Proof.
  intros Hout Hrev r1. subst r1.
  destruct (generate_key_press_random_keys g seed hc rot confine room (Some bounds) pos)
    as (Hk & Hn & Hp & Ht).
  rewrite confinement_step in Hn, Ht by (rewrite Hout; apply orb_true_r).
  rewrite Hrev in Hn. cbn [reverse_action_taken next_action] in Hn, Ht.
  split; [exact Hp|]. split; [exact Hn|]. split; [now rewrite Hk, Hn|].
  split.
  - intros m Hm. rewrite Hm, reverse_action_code in Hn.
    apply (keys_one_hot_int g seed hc rot confine room (Some bounds) pos _ Hn
             (code_range _)).
  - intros seed' hc' rot' confine' room' bounds' pos' Hout' r2. subst r2.
    destruct (generate_key_press_random_keys
                (generate_key_press_random g seed hc rot confine room (Some bounds) pos).1
                seed' hc' rot' confine' room' (Some bounds') pos') as (Hk' & Hn' & _).
    rewrite confinement_step in Hn' by (rewrite Hout'; apply orb_true_r).
    rewrite Ht in Hn'. cbn [next_action] in Hn'.
    split; [exact Hn'|]. now rewrite Hk', Hk, Hn'.
Qed.

(** C2, the missed case: on a fresh module every condition of the claim
    holds (non-empty [room_bounds], a position that is not the origin and
    lies outside them, no reverse taken before), yet nothing is reversed:
    the previous action is 0, [reverse_action(0)] is [None], and the tuple
    returned has all 323 entries set instead of encoding one reversed
    action; the next call made while still outside returns the same
    tuple. *)
Theorem C2_fresh_module_exit_reverses_nothing :
  let bounds := Region 0 0 0 1 0 1 in
  let pos := Position 5 0 5 in
  let r1 := generate_key_press_random initial_globals 0 false true "" ""
              (Some bounds) pos in
  let r2 := generate_key_press_random r1.1 0 false true "" "" (Some bounds) pos in
  outside_bounds (Some bounds) pos = true
  /\ reverse_action_taken initial_globals = false
  /\ previous_action r1.1 = Some 0
  /\ next_action r1.1 = None
  /\ r1.2 = Some (replicate 323 1)
  /\ (forall i, ~ one_hot (replicate 323 1) i)
  /\ next_action r2.1 = None
  /\ r2.2 = Some (replicate 323 1).
Proof.
  cbv zeta. repeat split; try (vm_compute; reflexivity).
  apply all_ones_not_one_hot.
Qed.

(** C9, the missed case: from the initial globals (previous action 0) a call
    that finds the agent outside [room_bounds] chooses [reverse_action(0)],
    which is [None]; indexing the key array with [None] sets all 323 entries
    to 1, so the returned tuple has 323 entries but is not one-hot at any
    index. *)
Theorem C9_reversing_initial_action_sets_all_keys :
  (generate_key_press_random initial_globals 0 false true "" ""
     (Some (Region 0 0 0 1 0 1)) (Position 5 0 5)).2
  = Some (replicate 323 1)
  /\ forall i, ~ one_hot (replicate 323 1) i.
Proof. split; [vm_compute; reflexivity | apply all_ones_not_one_hot]. Qed.

(** C10 as stated fails: with previous action 0 on a confinement branch
    (outside [room_bounds], no prior reverse) the indexing step returns a
    tuple, it does not raise. *)
Lemma C10_indexing_does_not_fail :
  next_action initial_globals = Some 0
  /\ reverse_action_taken initial_globals = false
  /\ outside_bounds (Some (Region 0 0 0 1 0 1)) (Position 5 0 5) = true
  /\ (generate_key_press_random initial_globals 0 false true "" ""
        (Some (Region 0 0 0 1 0 1)) (Position 5 0 5)).2 <> None.
Proof. repeat split; try reflexivity. vm_compute. discriminate. Qed.

(** C10, amended: [reverse_action] returns [None] on every input that is
    not one of the six action codes (the initial 0 included).  On a
    confinement branch (room exit or region exit) with no prior reverse, a
    previous action among the six codes gives a tuple that is one-hot at the
    opposite code; any other previous action gives [None] as the next
    action, and the indexing step then does not fail but sets every one of
    the 323 entries to 1. *)
Theorem C10_confinement_indexing g seed hc rot confine room rb pos :
  negb (String.eqb confine "") && negb (String.eqb room confine)
    || outside_bounds rb pos = true ->
  reverse_action_taken g = false ->
  (forall a : pyint, (forall m, a <> Some (code m)) -> reverse_action a = None)
  /\ (forall m, next_action g = Some (code m) ->
        exists keys,
          (generate_key_press_random g seed hc rot confine room rb pos).2 = Some keys
          /\ one_hot keys (Z.to_nat (code (opposite m))))
  /\ ((forall m, next_action g <> Some (code m)) ->
        next_action (generate_key_press_random g seed hc rot confine room rb pos).1 = None
        /\ (generate_key_press_random g seed hc rot confine room rb pos).2
           = Some (replicate 323 1)).
Proof.
  intros Hbr Hrev.
  assert (Hnone : forall a : pyint,
             (forall m, a <> Some (code m)) -> reverse_action a = None).
  { intros a Ha. destruct (reverse_action a) as [b|] eqn:E; [|reflexivity].
    apply reverse_action_Some in E as (m & -> & _). now destruct (Ha m). }
  destruct (generate_key_press_random_keys g seed hc rot confine room rb pos)
    as (Hk & Hn & _).
  rewrite (confinement_step _ _ _ _ _ _ _ _ Hbr), Hrev in Hn.
  cbn [next_action] in Hn.
  split; [exact Hnone|]. split.
  - intros m Hm. rewrite Hm, reverse_action_code in Hn.
    exact (keys_one_hot_int g seed hc rot confine room rb pos _ Hn (code_range _)).
  - intros Hm. rewrite (Hnone _ Hm) in Hn. split; [exact Hn|].
    rewrite Hk, Hn. apply np_setitem_zeros_none.
Qed.

Lemma C10_confinement_indexing_witness :
  (generate_key_press_random initial_globals 0 false true "A" "B" None
     (Position 0 0 0)).2
  = Some (replicate 323 1).
Proof.
  destruct (C10_confinement_indexing initial_globals 0 false true "A" "B" None
              (Position 0 0 0) eq_refl eq_refl) as (_ & _ & H).
  apply H. intros m. destruct m; discriminate.
Defined.

End KeysFacts.

Module ImagesFacts.
Import Images.

Lemma pixel_at_fmap {A B} (f : A -> B) (rows : list (list A)) (r c : nat) :
  pixel_at (fmap (M:=list) (fmap (M:=list) f) rows) r c = f <$> pixel_at rows r c.
Proof.
  unfold pixel_at. rewrite list_lookup_fmap.
  destruct (rows !! r) as [row|]; cbn; [|reflexivity].
  apply list_lookup_fmap.
Qed.

Lemma pick_bgra_to_rgba (px : list Z) :
  length px = 4%nat ->
  length (pick bgra_to_rgba px) = 4%nat
  /\ forall i ch, bgra_to_rgba !! i = Some ch ->
       pick bgra_to_rgba px !! i = px !! ch.
Proof.
  destruct px as [|b [|g [|r [|a [|]]]]]; try discriminate. intros _.
  split; [reflexivity|].
  intros i ch. destruct i as [|[|[|[|i]]]]; cbn; intros [= <-]; reflexivity.
Qed.

Lemma well_shaped_pixel (c : nat) (rows : list (list (list Z))) r col px :
  well_shaped (Multi c rows) -> pixel_at rows r col = Some px -> length px = c.
Proof.
  cbn. intros Hw Hp. unfold pixel_at in Hp.
  destruct (rows !! r) as [row|] eqn:Er; [|discriminate]. cbn in Hp.
  eapply Forall_lookup_1 in Hw; [|exact Er].
  eapply Forall_lookup_1 in Hw; [|exact Hp]. exact Hw.
Qed.

(** What [blit_img_to_surf] leaves behind once the conversion succeeded. *)
Lemma blit_img_to_surf_writes tmp img surf position key out :
  to_rgba img = Some out ->
  exists tmp' s,
    blit_img_to_surf tmp img surf position key
    = Some (tmp', surf ++ [(position, s)])
    /\ tmp' !! key = Some s
    /\ buffer s = tostring out.
Proof.
  intros Hc. unfold blit_img_to_surf. rewrite Hc. cbn [mbind option_bind].
  eexists _, _. split; [reflexivity|]. split; [apply lookup_insert_eq|].
  reflexivity.
Qed.

(** C5: a (H,W,4) image is written to the surface with output channel [i]
    of every pixel taken from input channel [[2,1,0,3][i]] (BGRA to RGBA); a
    two-dimensional gray image is written with every pixel [y] expanded to
    [y, y, y, 255].  The converted image is the buffer of the temporary
    surface stored under the key and blitted to the display. *)
Theorem C5_blit_converts_to_rgba tmp img surf position key :
  well_shaped img ->
  match img with Gray _ => True | Multi c _ => c = 4%nat end ->
  exists tmp' s out,
    blit_img_to_surf tmp img surf position key
    = Some (tmp', surf ++ [(position, s)])
    /\ tmp' !! key = Some s
    /\ buffer s = tostring out
    /\ match img with
       | Gray rows =>
           forall r c y, pixel_at rows r c = Some y ->
             pixel_at out r c = Some [y; y; y; 255]
       | Multi _ rows =>
           forall r c px, pixel_at rows r c = Some px ->
             exists px', pixel_at out r c = Some px'
               /\ length px' = 4%nat
               /\ forall i ch, [2; 1; 0; 3]%nat !! i = Some ch ->
                    px' !! i = px !! ch
       end.
Proof.
  intros Hw Hc.
  destruct img as [rows|c rows].
  - destruct (blit_img_to_surf_writes tmp (Gray rows) surf position key _ eq_refl)
      as (tmp' & s & H1 & H2 & H3).
    exists tmp', s, (fmap (M:=list) (fmap (M:=list) gray_pixel) rows).
    repeat split; try assumption.
    intros r c y Hy. rewrite pixel_at_fmap, Hy. reflexivity.
  - subst c.
    destruct (blit_img_to_surf_writes tmp (Multi 4 rows) surf position key _ eq_refl)
      as (tmp' & s & H1 & H2 & H3).
    exists tmp', s, (fmap (M:=list) (fmap (M:=list) (pick bgra_to_rgba)) rows).
    repeat split; try assumption.
    intros r c px Hpx. exists (pick bgra_to_rgba px).
    rewrite pixel_at_fmap, Hpx. split; [reflexivity|].
    apply pick_bgra_to_rgba. eapply well_shaped_pixel; eassumption.
Qed.

Lemma C5_blit_converts_to_rgba_witness :
  exists tmp' s,
    blit_img_to_surf ∅ (Multi 4 [[[10; 20; 30; 40]]]) [] (0, 0) "*"
    = Some (tmp', [((0, 0), s)])
    /\ buffer s = [30; 20; 10; 40].
Proof.
  destruct (C5_blit_converts_to_rgba ∅ (Multi 4 [[[10; 20; 30; 40]]]) []
              (0, 0) "*") as (tmp' & s & out & H1 & _ & H3 & _).
  - repeat constructor.
  - reflexivity.
  - exists tmp', s. split; [exact H1|].
    cbv in H1. injection H1 as _ <-. reflexivity.
Defined.

End ImagesFacts.

Module MainFacts.
Import Main.

(** C8: whatever [sim.start()], [sim.get_observation_space()] and
    [interactive_loop] do, [main] returns normally; the simulator is started
    exactly once; when one of them raises, the stack trace is printed
    ([traceback.print_exc()]) right before cleanup; and the run always ends
    with [sim.kill()] followed, when a video writer exists, by its
    [close()]. *)
Theorem C8_main_catches_and_cleans_up (s : session) (video_writer : bool) :
  exists body,
    main_run s video_writer []
    = (body ++ SimKill :: (if video_writer then [VideoWriterClose] else []),
       Ok tt)
    /\ count_event is_start body = 1%nat
    /\ (raises s ->
        exists pre, body = pre ++ [PrintExc; PrintLine "Error running simulator. Aborting."]
                    /\ count_event is_print_exc pre = 0%nat)
    /\ (~ raises s -> count_event is_print_exc body = 0%nat).
Proof.
  set (body := (try_except (try_body s) except_handler []).1).
  exists body.
  destruct s as [[[]|e1] [[]|e2] [[]|e3]], video_writer;
    (split; [reflexivity|]); (split; [reflexivity|]);
    (split;
     [ first
         [ solve [ intros _; exists (take (length body - 2) body);
                   split; vm_compute; reflexivity ]
         | solve [ intros H; exfalso; unfold raises in H; cbn in H;
                   destruct H as [[e H]|[H1 [[e H]|[H2 [e H]]]]];
                   discriminate ] ]
     | first
         [ solve [ intros _; reflexivity ]
         | solve [ intros Hn; exfalso; apply Hn; unfold raises; cbn;
                   eauto 10 ] ] ]).
Qed.

Lemma C8_main_catches_and_cleans_up_witness :
  exists body pre,
    main_run (Session (Ok true) (Ok tt) (Raise "lost connection")) true []
    = (body ++ [SimKill; VideoWriterClose], Ok tt)
    /\ body = pre ++ [PrintExc; PrintLine "Error running simulator. Aborting."].
Proof.
  destruct (C8_main_catches_and_cleans_up
              (Session (Ok true) (Ok tt) (Raise "lost connection")) true)
    as (body & H & _ & Hr & _).
  destruct Hr as (pre & Hp & _).
  - right. split; [reflexivity|]. right. split; [reflexivity|]. now eexists.
  - exists body, pre. split; [exact H | exact Hp].
Defined.

End MainFacts.

(* ===================================================================== *)
(** * Further properties of the partition *)
(* ===================================================================== *)

Module GeometryExtra.
Import Geometry GeometryFacts.

(** X1: the nine cells cover the rectangle spanned by the two corners
    whatever their order: every point within it (borders included) gets a
    region number from 1 to 9, never [None] and never an IndexError. *)
Theorem X1_get_region_covers_rectangle (s e p : position) :
  is_within_region p (spanned s e) = true ->
  exists n, get_region p (calculate_nine_region_bounds s e) = RegionNo n
            /\ 1 <= n <= 9.
Proof. apply get_region_covers. Qed.

Lemma X1_get_region_covers_rectangle_witness :
  exists n, get_region (Position 1 0 1)
              (calculate_nine_region_bounds (Position 3 0 3) (Position 0 0 0))
            = RegionNo n /\ 1 <= n <= 9.
Proof.
  apply (X1_get_region_covers_rectangle (Position 3 0 3) (Position 0 0 0)
           (Position 1 0 1)).
  reflexivity.
Defined.

(** X3: whatever the grid, a region number answered by [get_region] is
    [3*i + j + 1] for a cell [bounds[i][j]] that contains the point, and no
    cell tested before it (row-major order) contains the point. *)
Theorem X3_get_region_first_match (p : position) (bounds : list (list region))
    (n : Z) :
  get_region p bounds = RegionNo n ->
  exists (i j : nat) (r : region),
    (i < 3)%nat /\ (j < 3)%nat
    /\ n = 3 * Z.of_nat i + Z.of_nat j + 1
    /\ cell bounds i j = Some r
    /\ is_within_region p r = true
    /\ forall (i' j' : nat) r',
         (j' < 3)%nat ->
         (3 * i' + j' < 3 * i + j)%nat ->
         cell bounds i' j' = Some r' -> is_within_region p r' = false.
Proof.
  unfold get_region. cbn [first_region].
  destruct (cell bounds 0 0) as [r00|] eqn:C00; [|discriminate].
  destruct (is_within_region p r00) eqn:W00.
  { intros [= <-]. exists 0%nat, 0%nat, r00. repeat split; try lia; try done. }
  destruct (cell bounds 0 1) as [r01|] eqn:C01; [|discriminate].
  destruct (is_within_region p r01) eqn:W01.
  { intros [= <-]. exists 0%nat, 1%nat, r01. repeat split; try lia; try done.
    intros i' j' r' Hj Hlt Hc.
    assert (i' = 0 /\ j' = 0)%nat as [-> ->] by lia. congruence. }
  destruct (cell bounds 0 2) as [r02|] eqn:C02; [|discriminate].
  destruct (is_within_region p r02) eqn:W02.
  { intros [= <-]. exists 0%nat, 2%nat, r02. repeat split; try lia; try done.
    intros i' j' r' Hj Hlt Hc.
    assert (i' = 0 /\ (j' = 0 \/ j' = 1))%nat as [-> [-> | ->]] by lia;
      congruence. }
  destruct (cell bounds 1 0) as [r10|] eqn:C10; [|discriminate].
  destruct (is_within_region p r10) eqn:W10.
  { intros [= <-]. exists 1%nat, 0%nat, r10. repeat split; try lia; try done.
    intros i' j' r' Hj Hlt Hc.
    assert (i' = 0 /\ (j' = 0 \/ j' = 1 \/ j' = 2))%nat
      as [-> [-> | [-> | ->]]] by lia; congruence. }
  destruct (cell bounds 1 1) as [r11|] eqn:C11; [|discriminate].
  destruct (is_within_region p r11) eqn:W11.
  { intros [= <-]. exists 1%nat, 1%nat, r11. repeat split; try lia; try done.
    intros i' j' r' Hj Hlt Hc.
    assert ((i' = 0 /\ (j' = 0 \/ j' = 1 \/ j' = 2)) \/ (i' = 1 /\ j' = 0))%nat
      as [[-> [-> | [-> | ->]]] | [-> ->]] by lia; congruence. }
  destruct (cell bounds 1 2) as [r12|] eqn:C12; [|discriminate].
  destruct (is_within_region p r12) eqn:W12.
  { intros [= <-]. exists 1%nat, 2%nat, r12. repeat split; try lia; try done.
    intros i' j' r' Hj Hlt Hc.
    assert ((i' = 0 /\ (j' = 0 \/ j' = 1 \/ j' = 2))
            \/ (i' = 1 /\ (j' = 0 \/ j' = 1)))%nat
      as [[-> [-> | [-> | ->]]] | [-> [-> | ->]]] by lia; congruence. }
  destruct (cell bounds 2 0) as [r20|] eqn:C20; [|discriminate].
  destruct (is_within_region p r20) eqn:W20.
  { intros [= <-]. exists 2%nat, 0%nat, r20. repeat split; try lia; try done.
    intros i' j' r' Hj Hlt Hc.
    assert ((i' = 0 /\ (j' = 0 \/ j' = 1 \/ j' = 2))
            \/ (i' = 1 /\ (j' = 0 \/ j' = 1 \/ j' = 2)))%nat
      as [[-> [-> | [-> | ->]]] | [-> [-> | [-> | ->]]]] by lia; congruence. }
  destruct (cell bounds 2 1) as [r21|] eqn:C21; [|discriminate].
  destruct (is_within_region p r21) eqn:W21.
  { intros [= <-]. exists 2%nat, 1%nat, r21. repeat split; try lia; try done.
    intros i' j' r' Hj Hlt Hc.
    assert ((i' = 0 /\ (j' = 0 \/ j' = 1 \/ j' = 2))
            \/ (i' = 1 /\ (j' = 0 \/ j' = 1 \/ j' = 2))
            \/ (i' = 2 /\ j' = 0))%nat
      as [[-> [-> | [-> | ->]]] | [[-> [-> | [-> | ->]]] | [-> ->]]] by lia;
      congruence. }
  destruct (cell bounds 2 2) as [r22|] eqn:C22; [|discriminate].
  destruct (is_within_region p r22) eqn:W22; [|discriminate].
  intros [= <-]. exists 2%nat, 2%nat, r22. repeat split; try lia; try done.
  intros i' j' r' Hj Hlt Hc.
  assert ((i' = 0 /\ (j' = 0 \/ j' = 1 \/ j' = 2))
          \/ (i' = 1 /\ (j' = 0 \/ j' = 1 \/ j' = 2))
          \/ (i' = 2 /\ (j' = 0 \/ j' = 1)))%nat
    as [[-> [-> | [-> | ->]]] | [[-> [-> | [-> | ->]]] | [-> [-> | ->]]]] by lia;
    congruence.
Qed.

Lemma X3_get_region_first_match_witness :
  exists (i j : nat) (r : region),
    9 = 3 * Z.of_nat i + Z.of_nat j + 1
    /\ cell (calculate_nine_region_bounds (Position 3 0 3) (Position 0 0 0)) i j
       = Some r.
Proof.
  destruct (X3_get_region_first_match (Position 1 0 1)
              (calculate_nine_region_bounds (Position 3 0 3) (Position 0 0 0))
              9 eq_refl) as (i & j & r & _ & _ & Hn & Hc & _).
  exists i, j, r. split; [exact Hn | exact Hc].
Defined.

End GeometryExtra.

(* ===================================================================== *)
(** * Further properties of the key generator *)
(* ===================================================================== *)

Module KeysExtra.
Import Geometry Keys KeysFacts Walk.

Lemma get_random_action_cases (rotation : bool) (seed : Z) :
  (rotation = true /\ get_random_action rotation seed ∈ actions)
  \/ (rotation = false /\ get_random_action rotation seed ∈ translations).
Proof.
  unfold get_random_action, randint.
  destruct rotation; [left | right]; (split; [reflexivity|]).
  - pose proof (Z.mod_pos_bound seed (5 - 0 + 1) ltac:(lia)) as Hb.
    destruct (decide (seed `mod` (5 - 0 + 1) = 0)) as [->|]; [cbn; in_list|].
    destruct (decide (seed `mod` (5 - 0 + 1) = 1)) as [->|]; [cbn; in_list|].
    destruct (decide (seed `mod` (5 - 0 + 1) = 2)) as [->|]; [cbn; in_list|].
    destruct (decide (seed `mod` (5 - 0 + 1) = 3)) as [->|]; [cbn; in_list|].
    destruct (decide (seed `mod` (5 - 0 + 1) = 4)) as [->|]; [cbn; in_list|].
    destruct (decide (seed `mod` (5 - 0 + 1) = 5)) as [->|]; [cbn; in_list|].
    lia.
  - pose proof (Z.mod_pos_bound seed (3 - 0 + 1) ltac:(lia)) as Hb.
    destruct (decide (seed `mod` (3 - 0 + 1) = 0)) as [->|]; [cbn; in_list|].
    destruct (decide (seed `mod` (3 - 0 + 1) = 1)) as [->|]; [cbn; in_list|].
    destruct (decide (seed `mod` (3 - 0 + 1) = 2)) as [->|]; [cbn; in_list|].
    destruct (decide (seed `mod` (3 - 0 + 1) = 3)) as [->|]; [cbn; in_list|].
    lia.
Qed.

(** X5: [get_random_action] always returns one of the six action codes,
    and with [rotation=False] one of the four translation codes, never a
    turn (275 or 276); its IndexError fallback is never needed. *)
Theorem X5_get_random_action_range (rotation : bool) (seed : Z) :
  get_random_action rotation seed ∈ actions
  /\ (rotation = false ->
      get_random_action rotation seed ∈ translations
      /\ get_random_action rotation seed <> 275
      /\ get_random_action rotation seed <> 276)
  /\ py_getitem actions (if rotation then randint 0 5 seed else randint 0 3 seed)
     = Some (get_random_action rotation seed).
Proof.
  split; [|split].
  - destruct (get_random_action_cases rotation seed) as [[_ H]|[_ H]]; [exact H|].
    unfold translations, actions in *.
    rewrite !elem_of_cons, elem_of_nil in *. tauto.
  - intros ->. destruct (get_random_action_cases false seed) as [[? _]|[_ H]];
      [discriminate|].
    split; [exact H|]. unfold translations in H.
    rewrite !elem_of_cons, elem_of_nil in H. lia.
  - unfold get_random_action, randint.
    destruct rotation.
    + pose proof (Z.mod_pos_bound seed (5 - 0 + 1) ltac:(lia)) as Hb.
      destruct (decide (seed `mod` (5 - 0 + 1) = 0)) as [->|]; [reflexivity|].
      destruct (decide (seed `mod` (5 - 0 + 1) = 1)) as [->|]; [reflexivity|].
      destruct (decide (seed `mod` (5 - 0 + 1) = 2)) as [->|]; [reflexivity|].
      destruct (decide (seed `mod` (5 - 0 + 1) = 3)) as [->|]; [reflexivity|].
      destruct (decide (seed `mod` (5 - 0 + 1) = 4)) as [->|]; [reflexivity|].
      destruct (decide (seed `mod` (5 - 0 + 1) = 5)) as [->|]; [reflexivity|].
      lia.
    + pose proof (Z.mod_pos_bound seed (3 - 0 + 1) ltac:(lia)) as Hb.
      destruct (decide (seed `mod` (3 - 0 + 1) = 0)) as [->|]; [reflexivity|].
      destruct (decide (seed `mod` (3 - 0 + 1) = 1)) as [->|]; [reflexivity|].
      destruct (decide (seed `mod` (3 - 0 + 1) = 2)) as [->|]; [reflexivity|].
      destruct (decide (seed `mod` (3 - 0 + 1) = 3)) as [->|]; [reflexivity|].
      lia.
Qed.

Lemma X5_get_random_action_range_witness :
  get_random_action false 7 ∈ translations.
Proof.
  destruct (X5_get_random_action_range false 7) as (_ & H & _).
  destruct (H eq_refl) as (Ht & _). exact Ht.
Defined.

Lemma step_confined (g : globals) (c : call) :
  confined c = true ->
  next_action (step g c).1
  = (if reverse_action_taken g then next_action g
     else reverse_action (next_action g))
  /\ reverse_action_taken (step g c).1 = true.
Proof.
  intros Hc. unfold step.
  destruct (generate_key_press_random_keys g (c_seed c) (c_has_collided c)
              (c_rotation c) (c_confine_to_room c) (c_current_room c)
              (c_room_bounds c) (c_current_position c)) as (_ & -> & _ & ->).
  rewrite (confinement_step _ _ _ _ _ _ _ _ Hc). split; reflexivity.
Qed.

Lemma choose_action_free (g : globals) (c : call) :
  confined c = false ->
  choose_action g (c_seed c) (c_has_collided c) (c_rotation c)
    (c_confine_to_room c) (c_current_room c) (c_room_bounds c)
    (c_current_position c)
  = if c_has_collided c then
      Globals (next_action g)
        (Some (get_random_action (c_rotation c) (c_seed c)))
        (rotation_counter g) false
    else if py_eqb (next_action g) 0 then
      Globals (next_action g) (Some 119) (rotation_counter g) false
    else if (py_eqb (next_action g) 276 && (rotation_counter g mod 2 =? 0))
            || (py_eqb (next_action g) 275 && (rotation_counter g mod 2 =? 0))
    then
      Globals (next_action g)
        (Some (get_random_action (c_rotation c) (c_seed c))) 0 false
    else
      Globals (next_action g) (next_action g) (rotation_counter g) false.
Proof.
  unfold confined. intros [H1 H2]%orb_false_iff.
  unfold choose_action. rewrite H1, H2. reflexivity.
Qed.

Lemma step_free (g : globals) (c : call) :
  confined c = false ->
  next_action (step g c).1
  = (if c_has_collided c
     then Some (get_random_action (c_rotation c) (c_seed c))
     else if py_eqb (next_action g) 0 then Some 119
     else if (py_eqb (next_action g) 276 && (rotation_counter g mod 2 =? 0))
             || (py_eqb (next_action g) 275 && (rotation_counter g mod 2 =? 0))
     then Some (get_random_action (c_rotation c) (c_seed c))
     else next_action g)
  /\ reverse_action_taken (step g c).1 = false.
Proof.
  intros Hc. unfold step.
  destruct (generate_key_press_random_keys g (c_seed c) (c_has_collided c)
              (c_rotation c) (c_confine_to_room c) (c_current_room c)
              (c_room_bounds c) (c_current_position c)) as (_ & -> & _ & ->).
  rewrite (choose_action_free _ _ Hc).
  repeat case_match; split; reflexivity.
Qed.

Lemma step_keys (g : globals) (c : call) :
  (step g c).2 = np_setitem (np_zeros 323) (next_action (step g c).1) 1.
Proof. unfold step. apply generate_key_press_random_keys. Qed.

Lemma random_in_actions (rotation : bool) (seed : Z) :
  get_random_action rotation seed ∈ actions.
Proof.
  destruct (get_random_action_cases rotation seed) as [[_ H]|[_ H]]; [exact H|].
  unfold translations, actions in *.
  rewrite !elem_of_cons, elem_of_nil in *. tauto.
Qed.

(** After any call the pending action is [None] or an action code. *)
Lemma step_next_action (g : globals) (c : call) :
  module_state g ->
  next_action (step g c).1 = None
  \/ exists v, next_action (step g c).1 = Some v /\ v ∈ actions.
Proof.
  intros [Hn H0].
  destruct (confined c) eqn:Hc.
  - destruct (step_confined g c Hc) as [-> _].
    destruct (reverse_action_taken g) eqn:Ht.
    + destruct Hn as [->|(v & Hv & Hin)]; [now left|].
      rewrite Hv. right. exists v. split; [reflexivity|].
      apply elem_of_cons in Hin as [->|Hin]; [|exact Hin].
      specialize (H0 Hv). discriminate.
    + destruct (reverse_action (next_action g)) as [b|] eqn:E; [|now left].
      apply reverse_action_Some in E as (m & _ & ->).
      right. eexists; split; [reflexivity|]. apply actions_code. now eexists.
  - destruct (step_free g c Hc) as [-> _].
    repeat case_match;
      try (right; eexists; split; [reflexivity|]; apply random_in_actions);
      try (right; eexists; split; [reflexivity|]; unfold actions; in_list).
    destruct Hn as [Hn|(v & Hv & Hin)]; [now left|].
    right. exists v. split; [exact Hv|].
    apply elem_of_cons in Hin as [->|Hin]; [|exact Hin].
    rewrite Hv in *. cbn in *. discriminate.
Qed.

Lemma step_module_state (g : globals) (c : call) :
  module_state g -> module_state (step g c).1.
Proof.
  intros Hg. destruct (step_next_action g c Hg) as [Hn|(v & Hv & Hin)].
  - split; [now left|]. rewrite Hn. discriminate.
  - split.
    + right. exists v. split; [exact Hv|]. now apply elem_of_cons; right.
    + rewrite Hv. intros [= ->]. unfold actions in Hin.
      rewrite !elem_of_cons, elem_of_nil in Hin. lia.
Qed.

Lemma run_calls_module_state (cs : list call) (g : globals) :
  module_state g -> module_state (run_calls g cs).
Proof.
  revert g. induction cs as [|c cs IH]; intros g Hg; [exact Hg|].
  cbn. apply IH. now apply step_module_state.
Qed.

Lemma initial_module_state : module_state initial_globals.
Proof. split; [right; exists 0; split; [reflexivity|in_list] | reflexivity]. Qed.

(** X6: whatever calls were made since the module was loaded, with whatever
    arguments, the next call to [generate_key_press_random] does not raise:
    it returns a tuple of 323 entries which is either one-hot at one of the
    six action codes or has every entry set (the pending action is [None]
    then).  Key 0 is never the one reported. *)
Theorem X6_generator_never_raises (cs : list call) (c : call) :
  exists keys,
    (step (run_calls initial_globals cs) c).2 = Some keys
    /\ length keys = 323%nat
    /\ ((next_action (step (run_calls initial_globals cs) c).1 = None
         /\ keys = replicate 323 1)
        \/ exists v, next_action (step (run_calls initial_globals cs) c).1 = Some v
                     /\ v ∈ actions /\ one_hot keys (Z.to_nat v)).
Proof.
  set (g := run_calls initial_globals cs).
  assert (Hg : module_state g)
    by apply run_calls_module_state, initial_module_state.
  pose proof (step_keys g c) as Hk.
  destruct (step_next_action g c Hg) as [Hn|(v & Hv & Hin)].
  - rewrite Hn, np_setitem_zeros_none in Hk.
    eexists; split; [exact Hk|]. split; [apply length_replicate|]. now left.
  - assert (Hr : 0 <= v < 323).
    { apply actions_code in Hin as [m ->]. apply code_range. }
    rewrite Hv, np_setitem_zeros_int in Hk by exact Hr.
    eexists; split; [exact Hk|].
    split; [unfold np_zeros; now rewrite length_insert, length_replicate|].
    right. exists v. split; [exact Hv|]. split; [exact Hin|].
    apply one_hot_insert. lia.
Qed.

(** X7: once the pending action is [None], it stays [None] and every
    returned tuple has all 323 entries set, through every call that takes a
    confinement branch or sees no collision; only a collision seen outside
    the confinement branches ends it. *)
Theorem X7_none_action_persists (g : globals) (c : call) :
  next_action g = None ->
  confined c = true \/ c_has_collided c = false ->
  next_action (step g c).1 = None
  /\ (step g c).2 = Some (replicate 323 1).
Proof.
  intros Hn Hc.
  assert (Hn' : next_action (step g c).1 = None).
  { destruct (confined c) eqn:E.
    - destruct (step_confined g c E) as [-> _]. rewrite Hn.
      now destruct (reverse_action_taken g).
    - destruct Hc as [?|Hcol]; [discriminate|].
      destruct (step_free g c E) as [-> _]. rewrite Hcol, Hn. reflexivity. }
  split; [exact Hn'|].
  rewrite step_keys, Hn'. apply np_setitem_zeros_none.
Qed.

Lemma X7_none_action_persists_witness :
  (step (Globals (Some 0) None 0 true)
     (Call 0 false true "" "" None (Position 0 0 0))).2
  = Some (replicate 323 1).
Proof.
  destruct (X7_none_action_persists (Globals (Some 0) None 0 true)
              (Call 0 false true "" "" None (Position 0 0 0)) eq_refl
              (or_intror eq_refl)) as [_ H].
  exact H.
Defined.

(** X8: a translation (forward, backward, left, right) goes on unchanged as
    long as no confinement test succeeds and no collision is seen: the same
    action is chosen again, the tuple is one-hot at it, and the rotation
    counter and the previous action follow. *)
Theorem X8_translation_continues (g : globals) (c : call) (v : Z) :
  next_action g = Some v -> v ∈ translations ->
  confined c = false -> c_has_collided c = false ->
  next_action (step g c).1 = Some v
  /\ previous_action (step g c).1 = Some v
  /\ rotation_counter (step g c).1 = rotation_counter g
  /\ reverse_action_taken (step g c).1 = false
  /\ exists keys, (step g c).2 = Some keys /\ one_hot keys (Z.to_nat v).
Proof.
  intros Hv Hin Hc Hcol.
  assert (Hcases : v = 119 \/ v = 115 \/ v = 97 \/ v = 100).
  { unfold translations in Hin. rewrite !elem_of_cons, elem_of_nil in Hin. tauto. }
  assert (Hch : choose_action g (c_seed c) (c_has_collided c) (c_rotation c)
                  (c_confine_to_room c) (c_current_room c) (c_room_bounds c)
                  (c_current_position c)
                = Globals (Some v) (Some v) (rotation_counter g) false).
  { rewrite (choose_action_free _ _ Hc), Hcol, Hv.
    destruct Hcases as [->|[->|[->| ->]]]; reflexivity. }
  assert (Hst : (step g c).1 = Globals (Some v) (Some v) (rotation_counter g) false).
  { unfold step, generate_key_press_random. cbn [fst]. rewrite Hch.
    destruct Hcases as [->|[->|[->| ->]]]; reflexivity. }
  rewrite step_keys, Hst. cbn [next_action previous_action rotation_counter
                                reverse_action_taken].
  repeat split.
  rewrite np_setitem_zeros_int by lia.
  eexists; split; [reflexivity|]. apply one_hot_insert. lia.
Qed.

Lemma X8_translation_continues_witness :
  next_action
    (step (Globals (Some 119) (Some 119) 0 false)
       (Call 0 false true "kitchen" "kitchen" None (Position 1 0 1))).1
  = Some 119.
Proof.
  destruct (X8_translation_continues (Globals (Some 119) (Some 119) 0 false)
              (Call 0 false true "kitchen" "kitchen" None (Position 1 0 1)) 119
              eq_refl ltac:(in_list) eq_refl eq_refl) as [H _].
  exact H.
Defined.

(** X9: when the pending action is a turn (275 or 276) and neither a
    confinement test nor a collision interferes, the parity of the rotation
    counter decides: with an odd counter the same turn is made again and the
    counter goes up by one; with an even counter a new random action is
    drawn and the counter restarts (at 1 if the draw is a turn, else 0). *)
Theorem X9_turn_repeats_while_counter_odd (g : globals) (c : call) (r : Z) :
  next_action g = Some r -> r = 275 \/ r = 276 ->
  confined c = false -> c_has_collided c = false ->
  (rotation_counter g mod 2 <> 0 ->
     next_action (step g c).1 = Some r
     /\ rotation_counter (step g c).1 = rotation_counter g + 1)
  /\ (rotation_counter g mod 2 = 0 ->
       next_action (step g c).1
       = Some (get_random_action (c_rotation c) (c_seed c))
       /\ rotation_counter (step g c).1
          = if decide (get_random_action (c_rotation c) (c_seed c) = 275
                       \/ get_random_action (c_rotation c) (c_seed c) = 276)
            then 1 else 0).
Proof.
  intros Hv Hr Hc Hcol.
  unfold step, generate_key_press_random. cbn [fst].
  rewrite (choose_action_free _ _ Hc), Hcol, Hv.
  split; intros Hp.
  - apply Z.eqb_neq in Hp.
    destruct Hr as [-> | ->]; cbn [py_eqb]; rewrite Hp; cbn; split; reflexivity.
  - apply Z.eqb_eq in Hp.
    set (a := get_random_action (c_rotation c) (c_seed c)).
    destruct Hr as [-> | ->]; cbn [py_eqb]; rewrite Hp; cbn -[a];
      (destruct (decide (a = 275 \/ a = 276)) as [[E|E]|E];
       [ rewrite E; split; reflexivity
       | rewrite E; split; reflexivity
       | assert ((a =? 275) = false) as -> by (apply Z.eqb_neq; tauto);
         assert ((a =? 276) = false) as -> by (apply Z.eqb_neq; tauto);
         split; reflexivity ]).
Qed.

Lemma X9_turn_repeats_while_counter_odd_witness :
  next_action
    (step (Globals (Some 119) (Some 276) 1 false)
       (Call 0 false true "" "" None (Position 0 0 0))).1
  = Some 276.
Proof.
  destruct (X9_turn_repeats_while_counter_odd
              (Globals (Some 119) (Some 276) 1 false)
              (Call 0 false true "" "" None (Position 0 0 0)) 276
              eq_refl (or_intror eq_refl) eq_refl eq_refl) as [H _].
  destruct H as [H _]; [discriminate|]. exact H.
Defined.

End KeysExtra.

(* ===================================================================== *)
(** * Further properties of the window helpers *)
(* ===================================================================== *)

Module WindowExtra.
Import Window.

Lemma ensure_size_fixed (w h rw rh : Z) :
  rw <= w -> rh <= h -> ensure_size w h rw rh = ((w, h), false).
Proof.
  intros Hw Hh. unfold ensure_size.
  assert ((w <? rw) = false) as -> by (apply Z.ltb_ge; lia).
  assert ((h <? rh) = false) as -> by (apply Z.ltb_ge; lia).
  reflexivity.
Qed.

Lemma ensure_size_value (w h rw rh : Z) :
  (ensure_size w h rw rh).1 = (Z.max w rw, Z.max h rh)
  /\ ((ensure_size w h rw rh).2 = true <-> (w < rw \/ h < rh)).
Proof.
  unfold ensure_size.
  destruct (w <? rw) eqn:A, (h <? rh) eqn:B; cbn [orb fst snd];
    try apply Z.ltb_lt in A; try apply Z.ltb_lt in B;
    try apply Z.ltb_ge in A; try apply Z.ltb_ge in B;
    (split; [f_equal; lia|]); split; try tauto; try discriminate; lia.
Qed.

(** X15: [ensure_size] never shrinks the window and always leaves it at
    least as large as requested; it reports a resize exactly when the size
    changed; and asking again for the same size on the result does
    nothing. *)
Theorem X15_ensure_size_grows_once (w h rw rh : Z) :
  let r := ensure_size w h rw rh in
  rw <= r.1.1 /\ rh <= r.1.2 /\ w <= r.1.1 /\ h <= r.1.2
  /\ (r.2 = true <-> r.1 <> (w, h))
  /\ r.1 = (Z.max w rw, Z.max h rh)
  /\ ensure_size r.1.1 r.1.2 rw rh = (r.1, false).
Proof.
  cbv zeta. destruct (ensure_size_value w h rw rh) as [Hv Hf].
  rewrite Hf, Hv. cbn [fst snd].
  repeat split; try lia.
  - intros Hlt [= Hw Hh]. lia.
  - intros Hne.
    destruct (Z_lt_le_dec w rw) as [?|Hw]; [now left|].
    destruct (Z_lt_le_dec h rh) as [?|Hh]; [now right|].
    exfalso. apply Hne. f_equal; lia.
  - apply ensure_size_fixed; lia.
Qed.

Lemma display_repeatedly_done (n : nat) (e : info_dict) (show_goals : bool) :
  1 <= default 0 (displayed e) ->
  display_repeatedly n e show_goals = (e, []).
Proof.
  intros Hd. induction n as [|n IH]; [reflexivity|].
  cbn [display_repeatedly]. unfold display_episode_info.
  assert ((default 0 (displayed e) <? 1) = false) as -> by (apply Z.ltb_ge; lia).
  now rewrite IH.
Qed.

(** X16: on an episode info that was not displayed yet (no 'displayed' key,
    or 0), any number [n >= 1] of calls prints the info exactly once, on
    the first call, followed by the first goal observation when goals are
    shown and there is one; the later calls do nothing, and 'displayed'
    ends at 1. *)
Theorem X16_episode_info_shown_once (n : nat) (e : info_dict)
    (show_goals : bool) :
  displayed e = None \/ displayed e = Some 0 ->
  display_repeatedly (S n) e show_goals
  = (EpisodeInfo (Some 1) (goalObservations e),
     PrintEpisodeInfo ::
       (if show_goals then
          match goalObservations e with
          | Some (g :: _) => [DisplayGoal g]
          | _ => []
          end
        else [])).
Proof.
  intros Hd. cbn [display_repeatedly].
  assert (Hz : default 0 (displayed e) = 0) by (destruct Hd as [-> | ->]; reflexivity).
  unfold display_episode_info at 1. rewrite Hz. cbn [Z.ltb Z.compare].
  rewrite display_repeatedly_done by (cbn; lia).
  now rewrite app_nil_r.
Qed.

Lemma X16_episode_info_shown_once_witness :
  display_repeatedly 3 (EpisodeInfo None (Some [7%nat; 8%nat])) true
  = (EpisodeInfo (Some 1) (Some [7%nat; 8%nat]),
     [PrintEpisodeInfo; DisplayGoal 7]).
Proof.
  apply (X16_episode_info_shown_once 2 (EpisodeInfo None (Some [7%nat; 8%nat]))
           true).
  left. reflexivity.
Defined.

End WindowExtra.

(* ===================================================================== *)
(** * Further properties of the image conversion *)
(* ===================================================================== *)

Module ImagesExtra.
Import Images Shapes ImagesFacts.

Lemma to_rgba_multi (c : nat) (rows : list (list (list Z))) :
  to_rgba (Multi c rows)
  = if (3 <? c)%nat
    then Some (fmap (M:=list) (fmap (M:=list) (pick bgra_to_rgba)) rows)
    else None.
Proof.
  unfold to_rgba, bgra_to_rgba. cbn [forallb].
  destruct (3 <? c)%nat eqn:E.
  - apply Nat.ltb_lt in E.
    assert ((2 <? c)%nat = true) as -> by (apply Nat.ltb_lt; lia).
    assert ((1 <? c)%nat = true) as -> by (apply Nat.ltb_lt; lia).
    assert ((0 <? c)%nat = true) as -> by (apply Nat.ltb_lt; lia).
    reflexivity.
  - now rewrite !andb_false_r.
Qed.

(** X17: [blit_img_to_surf] fails (numpy's IndexError on the channel list
    [2,1,0,3]) exactly for an image with a third axis of fewer than four
    channels; gray images and images with four or more channels are always
    blitted, and then the temporary surfaces stored under other keys are
    left alone and exactly one blit is added to the display. *)
Theorem X17_blit_fails_only_below_four_channels tmp img surf position key :
  (blit_img_to_surf tmp img surf position key = None
   <-> exists c rows, img = Multi c rows /\ (c < 4)%nat)
  /\ forall tmp' surf',
       blit_img_to_surf tmp img surf position key = Some (tmp', surf') ->
       (forall k, k <> key -> tmp' !! k = tmp !! k)
       /\ exists s, surf' = surf ++ [(position, s)] /\ tmp' !! key = Some s.
Proof.
  split.
  - unfold blit_img_to_surf. destruct img as [rows|c rows].
    + cbn. split; [discriminate|]. intros (c & rows' & H & _). discriminate.
    + rewrite to_rgba_multi. destruct (3 <? c)%nat eqn:E; cbn.
      * apply Nat.ltb_lt in E. split; [discriminate|].
        intros (c' & rows' & [= -> ->] & Hc). lia.
      * apply Nat.ltb_ge in E. split; [|reflexivity].
        intros _. exists c, rows. split; [reflexivity|lia].
  - intros tmp' surf' H. unfold blit_img_to_surf in H.
    destruct (to_rgba img) as [out|]; [|discriminate]. cbn in H.
    injection H as <- <-. split.
    + intros k Hk. now apply lookup_insert_ne.
    + eexists; split; [reflexivity|]. apply lookup_insert_eq.
Qed.

Lemma length_concat_const {A} (k : nat) (ls : list (list A)) :
  Forall (fun l => length l = k) ls -> length (concat ls) = (length ls * k)%nat.
Proof.
  induction 1 as [|l ls Hl _ IH]; [reflexivity|].
  cbn. rewrite length_app, IH, Hl. reflexivity.
Qed.

Lemma length_tostring (w : nat) (out : list (list (list Z))) :
  rectangular w out ->
  Forall (Forall (fun px => length px = 4%nat)) out ->
  length (tostring out) = (4 * length out * w)%nat.
Proof.
  intros Hr Hp. unfold tostring.
  rewrite (length_concat_const 4).
  - rewrite (length_concat_const w) by exact Hr. lia.
  - apply Forall_concat. exact Hp.
Qed.

Lemma pick_length (px : list Z) :
  (4 <= length px)%nat -> length (pick bgra_to_rgba px) = 4%nat.
Proof.
  destruct px as [|b [|g [|r [|a rest]]]]; cbn; lia.
Qed.

(** X18: for an image of [H] rows of [W] pixels (gray, or with four or more
    channels per pixel) the buffer written to the temporary surface holds
    exactly [4*H*W] values: every pixel becomes four channels, further
    channels of the input are dropped. *)
Theorem X18_blit_buffer_is_four_per_pixel tmp img surf position key (w : nat) :
  well_shaped img -> has_width w img ->
  match img with Gray _ => True | Multi c _ => (4 <= c)%nat end ->
  exists tmp' s,
    blit_img_to_surf tmp img surf position key
    = Some (tmp', surf ++ [(position, s)])
    /\ length (buffer s) = (4 * row_count img * w)%nat.
Proof.
  intros Hw Hr Hc. destruct img as [rows|c rows]; cbn in Hw, Hr, Hc.
  - destruct (blit_img_to_surf_writes tmp (Gray rows) surf position key _ eq_refl)
      as (tmp' & s & H1 & _ & H3).
    exists tmp', s. split; [exact H1|]. rewrite H3, (length_tostring w).
    + cbn [row_count]. now rewrite length_fmap.
    + unfold rectangular in *. apply Forall_fmap.
      eapply Forall_impl; [exact Hr|]. intros row Hl. cbn.
      now rewrite length_fmap.
    + apply Forall_fmap, Forall_forall. intros row _. cbn.
      apply Forall_fmap, Forall_forall. intros y _. reflexivity.
  - assert (Hto : to_rgba (Multi c rows)
                  = Some (fmap (M:=list) (fmap (M:=list) (pick bgra_to_rgba)) rows)).
    { rewrite to_rgba_multi.
      assert ((3 <? c)%nat = true) as -> by (apply Nat.ltb_lt; lia).
      reflexivity. }
    destruct (blit_img_to_surf_writes tmp (Multi c rows) surf position key _ Hto)
      as (tmp' & s & H1 & _ & H3).
    exists tmp', s. split; [exact H1|]. rewrite H3, (length_tostring w).
    + cbn [row_count]. now rewrite length_fmap.
    + unfold rectangular in *. apply Forall_fmap.
      eapply Forall_impl; [exact Hr|]. intros row Hl. cbn.
      now rewrite length_fmap.
    + apply Forall_fmap. eapply Forall_impl; [exact Hw|].
      intros row Hrow. cbn. apply Forall_fmap.
      eapply Forall_impl; [exact Hrow|]. intros px Hpx. cbn in Hpx |- *.
      apply pick_length. rewrite Hpx. exact Hc.
Qed.

Lemma X18_blit_buffer_is_four_per_pixel_witness :
  exists tmp' s,
    blit_img_to_surf ∅ (Multi 5 [[[1; 2; 3; 4; 5]; [6; 7; 8; 9; 10]]]) []
      (0, 0) "map"
    = Some (tmp', [] ++ [((0, 0), s)])
    /\ length (buffer s) = (4 * 1 * 2)%nat.
Proof.
  apply (X18_blit_buffer_is_four_per_pixel ∅
           (Multi 5 [[[1; 2; 3; 4; 5]; [6; 7; 8; 9; 10]]]) [] (0, 0) "map" 2).
  - repeat constructor.
  - repeat constructor.
  - cbn. lia.
Defined.

End ImagesExtra.

(* ===================================================================== *)
(** * Properties of the window layout *)
(* ===================================================================== *)

Module LayoutExtra.
Import Layout.

Lemma foldl_max_ge (l : list Z) (x : Z) :
  x <= foldl Z.max x l /\ forall h, h ∈ l -> h <= foldl Z.max x l.
Proof.
  revert x. induction l as [|y l IH]; intros x; cbn.
  - split; [lia|]. intros h Hh. now apply elem_of_nil in Hh.
  - destruct (IH (Z.max x y)) as [H1 H2]. split; [lia|].
    intros h [->|Hh]%elem_of_cons; [lia|]. now apply H2.
Qed.

Lemma py_max_ge (l : list Z) (m : Z) :
  py_max l = Some m -> forall h, h ∈ l -> h <= m.
Proof.
  destruct l as [|x l]; [discriminate|]. cbn. intros [= <-] h.
  destruct (foldl_max_ge l x) as [H1 H2].
  intros [->|Hh]%elem_of_cons; [exact H1 | now apply H2].
Qed.

Lemma lookup_spaces_None sensors (names : list string) :
  lookup_spaces sensors names = None
  <-> exists obs, obs ∈ names /\ sensors !! obs = None.
Proof.
  induction names as [|o names IH]; cbn.
  - split; [discriminate|]. intros (obs & H & _). now apply elem_of_nil in H.
  - destruct (sensors !! o) as [sp|] eqn:E.
    + destruct (lookup_spaces sensors names) as [sps|].
      * split; [discriminate|].
        intros (obs & [->|H]%elem_of_cons & Hn); [congruence|].
        assert (None = None :> option (list (string * (Z * Z)))) as Hnn
          by reflexivity.
        destruct IH as [_ IH]. discriminate IH. eauto.
      * split; [|reflexivity]. intros _.
        destruct IH as [IH _]. destruct (IH eq_refl) as (obs & H & Hn).
        exists obs. split; [now apply elem_of_cons; right | exact Hn].
    + split; [|reflexivity]. intros _. exists o.
      split; [apply elem_of_cons; now left | exact E].
Qed.

Lemma lookup_spaces_Some sensors (names : list string) spaces :
  lookup_spaces sensors names = Some spaces ->
  spaces.*1 = names
  /\ forall o sp, (o, sp) ∈ spaces -> sensors !! o = Some sp.
Proof.
  revert spaces. induction names as [|o names IH]; cbn; intros spaces.
  - intros [= <-]. split; [reflexivity|].
    intros o sp H. now apply elem_of_nil in H.
  - destruct (sensors !! o) as [sp0|] eqn:E; [|discriminate].
    destruct (lookup_spaces sensors names) as [sps|]; [|discriminate].
    intros [= <-]. destruct (IH sps eq_refl) as [H1 H2].
    split; [cbn; now rewrite H1|].
    intros o' sp' [[= -> ->]|H]%elem_of_cons; [exact E | now apply H2].
Qed.

(** What the loop of lines 450-464 leaves, when no height exceeds the
    starting [max_height]. *)
Lemma place_row_spec (sg : bool) (dh : Z) (spaces : list (string * (Z * Z))) :
  forall tw0 mh0 cs gs tw mh,
    place_row sg dh tw0 mh0 spaces = ((cs, gs), (tw, mh)) ->
    (forall o sp, (o, sp) ∈ spaces -> 0 <= sp.1 /\ 0 <= sp.2 /\ sp.2 <= mh0) ->
    mh = mh0 /\ tw0 <= tw
    /\ tiled tw0 cs /\ obs <$> cs = spaces.*1
    /\ (forall p, p ∈ cs ->
          tw0 <= (position p).1 /\ (position p).1 + (shape p).1 <= tw
          /\ (position p).2 = 60
          /\ label_position p = ((position p).1, 40)
          /\ 0 <= (shape p).2 <= mh0)
    /\ (sg = false -> gs = [])
    /\ (sg = true ->
          tiled tw0 gs /\ length gs = length cs
          /\ forall q, q ∈ gs ->
               tw0 <= (position q).1 /\ (position q).1 + (shape q).1 <= tw
               /\ (position q).2 = dh + 60
               /\ label_position q = ((position q).1, dh + 40)
               /\ 0 <= (shape q).2 <= mh0).
Proof.
  induction spaces as [|[o [w h]] spaces IH]; intros tw0 mh0 cs gs tw mh Hp Hs.
  - cbn in Hp. injection Hp as <- <- <- <-.
    split; [reflexivity|]. split; [lia|]. split; [exact I|].
    split; [reflexivity|].
    split; [intros p Hnil; now apply elem_of_nil in Hnil|].
    split; [reflexivity|]. intros _.
    split; [exact I|]. split; [reflexivity|].
    intros q Hnil; now apply elem_of_nil in Hnil.
  - cbn [place_row] in Hp.
    destruct (Hs o (w, h) ltac:(apply elem_of_cons; now left)) as (Hw & Hh & Hm).
    cbn [fst snd] in Hw, Hh, Hm.
    assert ((h >? mh0) = false) as Hgt by (rewrite Z.gtb_ltb; apply Z.ltb_ge; lia).
    rewrite Hgt in Hp.
    destruct (place_row sg dh (tw0 + w) mh0 spaces) as [[cs' gs'] [tw' mh']] eqn:E.
    injection Hp as <- <- <- <-.
    destruct (IH _ _ _ _ _ _ E) as (H1 & H2 & H3 & H4 & H5 & H6 & H7).
    { intros o' sp' H. apply (Hs o'). apply elem_of_cons. now right. }
    unfold font_spacing in *.
    split; [exact H1|]. split; [lia|].
    split; [cbn; split; [reflexivity | exact H3]|].
    split; [cbn; now rewrite H4|].
    split.
    { intros p [->|Hin]%elem_of_cons; cbn.
      - repeat split; lia.
      - destruct (H5 p Hin) as (A & B & C & D & F). repeat split; try lia; done. }
    split.
    { intros ->. cbn. now apply H6. }
    intros ->. destruct (H7 eq_refl) as (G1 & G2 & G3). cbn.
    split; [split; [reflexivity | exact G1]|].
    split; [now rewrite G2|].
    intros q [->|Hin]%elem_of_cons; cbn.
    + repeat split; lia.
    + destruct (G3 q Hin) as (A & B & C & D & F). repeat split; try lia; done.
Qed.

Lemma elem_of_filter_enabled (a : settings) (o : string) :
  o ∈ List.filter (enabled a) all_camera_observations
  <-> o ∈ all_camera_observations /\ enabled a o = true.
Proof. rewrite !list_elem_of_In. apply List.filter_In. Qed.

Lemma none_enabled (a : settings) :
  List.filter (enabled a) all_camera_observations = []
  <-> forall o, o ∈ all_camera_observations -> enabled a o = false.
Proof.
  split.
  - intros Hnil o Ho. destruct (enabled a o) eqn:E; [|reflexivity].
    assert (o ∈ List.filter (enabled a) all_camera_observations) as Hin
      by (apply elem_of_filter_enabled; now split).
    rewrite Hnil in Hin. now apply elem_of_nil in Hin.
  - intros Hall.
    destruct (List.filter (enabled a) all_camera_observations) as [|o l] eqn:E;
      [reflexivity|].
    assert (o ∈ List.filter (enabled a) all_camera_observations) as Hin
      by (rewrite E; apply elem_of_cons; now left).
    apply elem_of_filter_enabled in Hin as [Ho He].
    rewrite (Hall o Ho) in He. discriminate.
Qed.

(** The shape of a successful layout. *)
Lemma compute_layout_inr (a : settings) (sensors : gmap string (Z * Z)) (l : layout) :
  compute_layout a sensors = inr l -> sane sensors ->
  exists spaces mh cs gs tw,
    lookup_spaces sensors (List.filter (enabled a) all_camera_observations)
    = Some spaces
    /\ place_row (show_goals a) (mh + font_spacing * 3) 0 mh spaces
       = ((cs, gs), (tw, mh))
    /\ (forall o sp, (o, sp) ∈ spaces -> 0 <= sp.1 /\ 0 <= sp.2 /\ sp.2 <= mh)
    /\ l = let dh := (if show_goals a
                      then mh + font_spacing * 3 + (mh + font_spacing * 3)
                      else mh + font_spacing * 3) + font_spacing in
           let nx := if enabled a "forces" then plot_size a + plot_size a
                     else plot_size a in
           MkLayout cs gs (0, dh)
             (Rect 0 (dh + font_spacing) (plot_size a) (plot_size a))
             (if enabled a "forces"
              then Some ((plot_size a, dh),
                         Rect (plot_size a) (dh + font_spacing)
                              (plot_size a) (plot_size a))
              else None)
             (if enabled a "map"
              then Some ((nx, dh), (nx, dh + font_spacing)) else None)
             (Z.max tw nx, dh + font_spacing + plot_size a).
Proof.
  unfold compute_layout. intros Hc Hsane.
  destruct (lookup_spaces sensors _) as [spaces|] eqn:El; [|discriminate].
  destruct (py_max _) as [mh|] eqn:Em; [|discriminate].
  destruct (place_row _ _ _ _ _) as [[cs gs] [tw mh']] eqn:Ep.
  injection Hc as <-.
  assert (Hs : forall o sp, (o, sp) ∈ spaces ->
                 0 <= sp.1 /\ 0 <= sp.2 /\ sp.2 <= mh).
  { intros o sp Hin.
    destruct (lookup_spaces_Some _ _ _ El) as [_ Hl].
    destruct (Hsane o sp (Hl o sp Hin)) as [Hw Hh].
    repeat split; try assumption.
    apply (py_max_ge _ _ Em). apply list_elem_of_fmap. now exists (o, sp). }
  assert (mh' = mh) as ->
    by now destruct (place_row_spec _ _ _ _ _ _ _ _ _ Ep Hs).
  exists spaces, mh, cs, gs, tw.
  split; [reflexivity|]. split; [exact Ep|]. split; [exact Hs|].
  cbv zeta.
  destruct (show_goals a), (enabled a "forces"), (enabled a "map"); reflexivity.
Qed.

Lemma plot_size_range (a : settings) : 64 <= plot_size a <= 128.
Proof. unfold plot_size. lia. Qed.

(** X19: the set-up of the window fails before any window is opened in
    exactly two cases: with a ValueError ([max] of an empty list) when none
    of the seven camera observations is enabled, and with an AttributeError
    when an enabled camera observation has no sensor space; otherwise a
    layout is computed. *)
Theorem X19_layout_fails_without_cameras (a : settings)
    (sensors : gmap string (Z * Z)) :
  (compute_layout a sensors = inl AttributeError
   <-> exists o, o ∈ all_camera_observations /\ enabled a o = true
                 /\ sensors !! o = None)
  /\ (compute_layout a sensors = inl ValueError
      <-> forall o, o ∈ all_camera_observations -> enabled a o = false).
Proof.
  unfold compute_layout.
  destruct (lookup_spaces sensors _) as [spaces|] eqn:El.
  - destruct (lookup_spaces_Some _ _ _ El) as [Hn _].
    assert (Hno : ~ exists o, o ∈ all_camera_observations /\ enabled a o = true
                              /\ sensors !! o = None).
    { intros (o & Ho & He & Hnone).
      assert (lookup_spaces sensors
                (List.filter (enabled a) all_camera_observations) = None) as Hl.
      { apply lookup_spaces_None. exists o. split; [|exact Hnone].
        apply elem_of_filter_enabled. now split. }
      congruence. }
    destruct spaces as [|sp spaces].
    + cbn. split; [split; [discriminate | intros H; now destruct Hno]|].
      split; [intros _|reflexivity]. apply none_enabled. now rewrite <- Hn.
    + cbn [fmap list_fmap py_max].
      destruct (place_row _ _ _ _ _) as [[cs gs] [tw mh']].
      split; [split; [discriminate | intros H; now destruct Hno]|].
      split; [discriminate|]. intros Hall%none_enabled.
      rewrite Hall in Hn. discriminate.
  - split; [split; [intros _ | reflexivity]|].
    + apply lookup_spaces_None in El as (o & Ho & Hnone).
      apply elem_of_filter_enabled in Ho as [Ho He]. now exists o.
    + split; [discriminate|]. intros Hall%none_enabled.
      rewrite Hall in El. discriminate.
Qed.

(** X20: in a computed layout the current camera images are exactly the
    enabled camera observations, in the fixed order; they are set side by
    side from x = 0, each starting where the one before ends (no overlap
    and no gap); each lies inside the window below the two text rows
    (y = 60), with its label 20 pixels above it. *)
Theorem X20_camera_images_tile_the_window (a : settings)
    (sensors : gmap string (Z * Z)) (l : layout) :
  compute_layout a sensors = inr l -> sane sensors ->
  obs <$> curr l = List.filter (enabled a) all_camera_observations
  /\ tiled 0 (curr l)
  /\ forall p, p ∈ curr l ->
       fits 60 (display_shape l).1 (display_shape l).2 p
       /\ (position p).2 = 60
       /\ label_position p = ((position p).1, 40).
Proof.
  intros Hc Hsane.
  destruct (compute_layout_inr a sensors l Hc Hsane)
    as (spaces & mh & cs & gs & tw & El & Ep & Hs & ->).
  destruct (place_row_spec _ _ _ _ _ _ _ _ _ Ep Hs)
    as (_ & Htw & Ht & Ho & Hp & _).
  destruct (lookup_spaces_Some _ _ _ El) as [Hn _].
  cbn [curr display_shape fst snd].
  split; [now rewrite Ho|]. split; [exact Ht|].
  intros p Hin. destruct (Hp p Hin) as (A & B & C & D & F).
  pose proof (plot_size_range a) as Hplot.
  unfold fits, font_spacing.
  repeat split; try lia; try assumption.
  destruct (show_goals a); lia.
Qed.

Lemma X20_camera_images_tile_the_window_witness :
  exists l,
    compute_layout
      (Settings {[ "color" := true; "depth" := true ]} false 84)
      {[ "color" := (84, 84); "depth" := (84, 84) ]} = inr l
    /\ tiled 0 (curr l).
Proof.
  eexists. split; [vm_compute; reflexivity|].
  eapply (X20_camera_images_tile_the_window
            (Settings {[ "color" := true; "depth" := true ]} false 84)
            {[ "color" := (84, 84); "depth" := (84, 84) ]}).
  - vm_compute. reflexivity.
  - intros o sp H.
    apply lookup_insert_Some in H as [[_ <-]|[_ H]]; [cbn; lia|].
    apply lookup_singleton_Some in H as [_ <-]. cbn; lia.
Defined.

(** X21: the rows of the window do not run into each other.  Every current
    image ends at least 40 pixels above the plot row; without [show_goals]
    there are no goal images; with it there is one goal image per current
    image, tiled from x = 0 in the same way, each 20 pixels below its label,
    inside the window, its label at least 40 pixels below every current
    image, and ending at least 40 pixels above the plot row. *)
Theorem X21_rows_are_stacked (a : settings) (sensors : gmap string (Z * Z))
    (l : layout) :
  compute_layout a sensors = inr l -> sane sensors ->
  (forall p, p ∈ curr l ->
     (position p).2 + (shape p).2 + 40 <= top (offset_area l))
  /\ (show_goals a = false -> goal l = [])
  /\ (show_goals a = true ->
      length (goal l) = length (curr l)
      /\ tiled 0 (goal l)
      /\ forall q, q ∈ goal l ->
           fits ((label_position q).2 + 20) (display_shape l).1
                (display_shape l).2 q
           /\ (position q).2 = (label_position q).2 + 20
           /\ (position q).2 + (shape q).2 + 40 <= top (offset_area l)
           /\ forall p, p ∈ curr l ->
                (position p).2 + (shape p).2 + 40 <= (label_position q).2).
Proof.
  intros Hc Hsane.
  destruct (compute_layout_inr a sensors l Hc Hsane)
    as (spaces & mh & cs & gs & tw & El & Ep & Hs & ->).
  destruct (place_row_spec _ _ _ _ _ _ _ _ _ Ep Hs)
    as (_ & Htw & Ht & Ho & Hp & Hg0 & Hg1).
  pose proof (plot_size_range a) as Hplot.
  cbn [curr goal display_shape offset_area top fst snd].
  unfold font_spacing in *.
  split.
  { intros p Hin. destruct (Hp p Hin) as (A & B & C & D & F).
    destruct (show_goals a); lia. }
  split; [exact Hg0|].
  intros Hsg. destruct (Hg1 Hsg) as (G1 & G2 & G3).
  split; [exact G2|]. split; [exact G1|].
  intros q Hq. destruct (G3 q Hq) as (A & B & C & D & F).
  rewrite D, Hsg. cbn [fst snd]. unfold fits.
  repeat split; try lia.
  intros p Hin. destruct (Hp p Hin) as (A' & B' & C' & D' & F'). lia.
Qed.

Lemma X21_rows_are_stacked_witness :
  exists l,
    compute_layout
      (Settings {[ "color" := true; "depth" := true ]} true 84)
      {[ "color" := (84, 84); "depth" := (84, 60) ]} = inr l
    /\ length (goal l) = length (curr l).
Proof.
  eexists. split; [vm_compute; reflexivity|].
  eapply (X21_rows_are_stacked
            (Settings {[ "color" := true; "depth" := true ]} true 84)
            {[ "color" := (84, 84); "depth" := (84, 60) ]}).
  - vm_compute. reflexivity.
  - intros o sp H.
    apply lookup_insert_Some in H as [[_ <-]|[_ H]]; [cbn; lia|].
    apply lookup_singleton_Some in H as [_ <-]. cbn; lia.
  - reflexivity.
Defined.

(** X22: the plot row.  The plot size is [args.height] clamped to 64..128;
    the offset plot is a square of that size in the bottom left corner of
    the window with its label 20 pixels above; when forces are observed
    their plot is the same square right next to it; when a map is observed
    it starts right of the plots; and the window is wide enough for the
    plots and for the start of the map. *)
Theorem X22_plot_row_at_bottom (a : settings) (sensors : gmap string (Z * Z))
    (l : layout) :
  compute_layout a sensors = inr l -> sane sensors ->
  let plot := plot_size a in
  let W := (display_shape l).1 in
  let H := (display_shape l).2 in
  let nx := if enabled a "forces" then 2 * plot else plot in
  64 <= plot <= 128
  /\ plot = Z.max 64 (Z.min 128 (height a))
  /\ offset_area l = Rect 0 (H - plot) plot plot
  /\ offset_label l = (0, H - plot - 20)
  /\ forces l
     = (if enabled a "forces"
        then Some ((plot, H - plot - 20), Rect plot (H - plot) plot plot)
        else None)
  /\ map_label l
     = (if enabled a "map"
        then Some ((nx, H - plot - 20), (nx, H - plot)) else None)
  /\ nx <= W.
Proof.
  intros Hc Hsane.
  destruct (compute_layout_inr a sensors l Hc Hsane)
    as (spaces & mh & cs & gs & tw & El & Ep & Hs & ->).
  pose proof (plot_size_range a) as Hplot.
  cbv zeta.
  cbn [display_shape offset_area offset_label forces map_label fst snd].
  unfold font_spacing.
  split; [exact Hplot|].
  split; [unfold plot_size; lia|].
  split; [f_equal; lia|].
  split; [f_equal; lia|].
  split.
  { destruct (enabled a "forces"); [|reflexivity].
    do 2 f_equal; [f_equal; lia | f_equal; lia]. }
  split.
  { destruct (enabled a "map"); [|reflexivity].
    destruct (enabled a "forces"); do 2 f_equal; f_equal; lia. }
  destruct (enabled a "forces"); lia.
Qed.

Lemma X22_plot_row_at_bottom_witness :
  exists l,
    compute_layout
      (Settings {[ "color" := true; "forces" := true ]} false 300)
      {[ "color" := (84, 84) ]} = inr l
    /\ offset_area l = Rect 0 ((display_shape l).2 - 128) 128 128.
Proof.
  eexists. split; [vm_compute; reflexivity|].
  destruct (X22_plot_row_at_bottom
              (Settings {[ "color" := true; "forces" := true ]} false 300)
              {[ "color" := (84, 84) ]}
              (MkLayout [Placed "color" (0, 40) (0, 60) (84, 84)] [] (0, 164)
                 (Rect 0 184 128 128)
                 (Some ((128, 164), Rect 128 184 128 128)) None (256, 312)))
    as (_ & _ & H & _).
  - vm_compute. reflexivity.
  - intros o sp H.
    apply lookup_singleton_Some in H as [_ <-]. cbn; lia.
  - exact H.
Defined.

End LayoutExtra.

(* ===================================================================== *)
(** * Confinement followed by re-entry *)
(* ===================================================================== *)

Module ReentryExtra.
Import Geometry Keys KeysFacts Walk KeysExtra.

(** X25: leaving and coming back.  With a translation pending and no
    reverse taken yet, a call that takes a confinement branch followed by a
    call that takes none and sees no collision leaves the agent moving in
    the opposite direction with the reverse flag cleared: coming back
    inside does not restore the original direction, and the next exit will
    reverse again. *)
Theorem X25_reentry_keeps_reversed_direction (g : globals) (c1 c2 : call)
    (m : motion) :
  next_action g = Some (code m) -> code m ∈ translations ->
  reverse_action_taken g = false ->
  confined c1 = true -> confined c2 = false -> c_has_collided c2 = false ->
  let g1 := (step g c1).1 in
  let g2 := (step g1 c2).1 in
  next_action g1 = Some (code (opposite m))
  /\ reverse_action_taken g1 = true
  /\ next_action g2 = Some (code (opposite m))
  /\ reverse_action_taken g2 = false
  /\ (exists keys, (step g1 c2).2 = Some keys
                   /\ one_hot keys (Z.to_nat (code (opposite m))))
  /\ forall c3, confined c3 = true ->
       next_action (step g2 c3).1 = Some (code m).
Proof.
  intros Hv Hin Hrev Hc1 Hc2 Hcol g1 g2.
  destruct (step_confined g c1 Hc1) as [Hn1 Ht1].
  rewrite Hrev, Hv, reverse_action_code in Hn1. fold g1 in Hn1, Ht1.
  assert (Hop : code (opposite m) ∈ translations).
  { unfold translations in *. rewrite !elem_of_cons, elem_of_nil in Hin.
    destruct m; cbn in *; try in_list; lia. }
  assert (Hch : choose_action g1 (c_seed c2) (c_has_collided c2) (c_rotation c2)
                  (c_confine_to_room c2) (c_current_room c2) (c_room_bounds c2)
                  (c_current_position c2)
                = Globals (Some (code (opposite m))) (Some (code (opposite m)))
                    (rotation_counter g1) false).
  { rewrite (choose_action_free _ _ Hc2), Hcol, Hn1.
    unfold translations in Hin. rewrite !elem_of_cons, elem_of_nil in Hin.
    destruct m; cbn in *; try reflexivity; lia. }
  assert (Hst : g2 = Globals (Some (code (opposite m))) (Some (code (opposite m)))
                       (rotation_counter g1) false).
  { unfold g2, step, generate_key_press_random. cbn [fst]. rewrite Hch.
    unfold translations in Hin. rewrite !elem_of_cons, elem_of_nil in Hin.
    destruct m; cbn in *; try reflexivity; lia. }
  split; [exact Hn1|]. split; [exact Ht1|].
  split; [now rewrite Hst|]. split; [now rewrite Hst|].
  split.
  - rewrite step_keys. fold g2. rewrite Hst. cbn [next_action].
    rewrite np_setitem_zeros_int by apply code_range.
    eexists; split; [reflexivity|]. apply one_hot_insert.
    pose proof (code_range (opposite m)). lia.
  - intros c3 Hc3. destruct (step_confined g2 c3 Hc3) as [-> _].
    rewrite Hst. cbn [reverse_action_taken next_action].
    rewrite reverse_action_code. now destruct m.
Qed.

Lemma X25_reentry_keeps_reversed_direction_witness :
  next_action
    (step
       (step (Globals (Some 119) (Some 119) 0 false)
          (Call 0 false true "kitchen" "hall" None (Position 1 0 1))).1
       (Call 0 false true "kitchen" "kitchen" None (Position 1 0 1))).1
  = Some 115.
Proof.
  destruct (X25_reentry_keeps_reversed_direction
              (Globals (Some 119) (Some 119) 0 false)
              (Call 0 false true "kitchen" "hall" None (Position 1 0 1))
              (Call 0 false true "kitchen" "kitchen" None (Position 1 0 1))
              Forward eq_refl ltac:(in_list) eq_refl eq_refl eq_refl eq_refl)
    as (_ & _ & H & _).
  exact H.
Defined.

End ReentryExtra.

(* ===================================================================== *)
(** * The frame loop: keys, quit test and handlers *)
(* ===================================================================== *)

Module LoopFacts.
Import Geometry Keys KeysFacts Walk Rooms Loop Dispatch KeysExtra.

Lemma generate_key_press_random_rooms_strings g seed hc rot (c r : string) rb pos :
  generate_key_press_random_rooms g seed hc rot (RoomStr c) (RoomStr r) rb pos
  = generate_key_press_random g seed hc rot c r rb pos.
Proof. reflexivity. Qed.

Lemma read_keys_step (g : globals) (f : frame) :
  read_keys g f = step g (loop_call f).
Proof.
  unfold read_keys, step, loop_call, generate_key_press_random_rooms,
    generate_key_press_random, choose_action_rooms, choose_action.
  cbn [c_seed c_has_collided c_rotation c_confine_to_room c_current_room
       c_room_bounds c_current_position].
  destruct (room_exit (current_room f) (current_room f)); reflexivity.
Qed.

Lemma run_frames_calls (fs : list frame) (g : globals) :
  run_frames g fs = run_calls g (loop_call <$> fs).
Proof.
  revert g. induction fs as [|f fs IH]; intros g; [reflexivity|].
  change (run_frames g (f :: fs)) with (run_frames (read_keys g f).1 fs).
  change (run_calls g (loop_call <$> f :: fs))
    with (run_calls (step g (loop_call f)).1 (loop_call <$> fs)).
  rewrite read_keys_step. apply IH.
Qed.

(** Only a NaN room id differs from itself. *)
Lemma self_exit (r : room_id) : room_exit r r = true <-> r = RoomNaN.
Proof.
  unfold room_exit. destruct r as [s|q| |]; cbn.
  - rewrite String.eqb_refl, andb_false_r. split; discriminate.
  - rewrite Qeq_bool_refl. split; discriminate.
  - split; reflexivity.
  - split; discriminate.
Qed.

Lemma loop_call_confined (f : frame) :
  confined (loop_call f) = room_exit (current_room f) (current_room f).
Proof.
  unfold confined, loop_call.
  destruct (room_exit (current_room f) (current_room f)); reflexivity.
Qed.

Lemma loop_call_free (f : frame) :
  current_room f <> RoomNaN -> confined (loop_call f) = false.
Proof.
  intros Hn. rewrite loop_call_confined.
  destruct (room_exit (current_room f) (current_room f)) eqn:E; [|reflexivity].
  apply self_exit in E. contradiction.
Qed.

Lemma run_frames_module_state (fs : list frame) :
  module_state (run_frames initial_globals fs).
Proof.
  rewrite run_frames_calls. apply run_calls_module_state, initial_module_state.
Qed.

(** What a tuple of the generator says about a key. *)
Lemma key_down_one_hot (keys : list Z) (v k : Z) :
  length keys = 323%nat -> one_hot keys (Z.to_nat v) ->
  0 <= v < 323 -> 0 <= k < 323 ->
  key_down keys k = bool_decide (k = v).
Proof.
  intros Hl [H1 H0] Hv Hk. unfold key_down, py_getitem. rewrite Hl.
  change (Z.of_nat 323) with 323.
  destruct (0 <=? k) eqn:A, (k <? 323) eqn:B; try lia. cbn [andb].
  destruct (decide (k = v)) as [->|Hne].
  - rewrite H1. now rewrite bool_decide_eq_true_2.
  - rewrite H0 by lia. now rewrite bool_decide_eq_false_2.
Qed.

Lemma key_down_all_ones (k : Z) :
  0 <= k < 323 -> key_down (replicate 323 1) k = true.
Proof.
  intros Hk. unfold key_down, py_getitem. rewrite length_replicate.
  change (Z.of_nat 323) with 323.
  destruct (0 <=? k) eqn:A, (k <? 323) eqn:B; try lia. cbn [andb].
  rewrite lookup_replicate_2 by lia. reflexivity.
Qed.

(** The tuple of any pass: all entries set, or one-hot at an action code. *)
Lemma read_keys_tuple (fs : list frame) (f : frame) :
  exists keys,
    (read_keys (run_frames initial_globals fs) f).2 = Some keys
    /\ (keys = replicate 323 1
        \/ exists m, keys = <[Z.to_nat (code m) := 1]> (np_zeros 323)
                     /\ next_action (read_keys (run_frames initial_globals fs) f).1
                        = Some (code m)).
Proof.
  set (g := run_frames initial_globals fs).
  pose proof (run_frames_module_state fs) as Hg. fold g in Hg.
  rewrite read_keys_step.
  pose proof (step_keys g (loop_call f)) as Hk.
  destruct (step_next_action g (loop_call f) Hg) as [Hn|(v & Hv & Hin)].
  - rewrite Hn, np_setitem_zeros_none in Hk. eexists; split; [exact Hk|].
    now left.
  - apply actions_code in Hin as [m ->].
    rewrite Hv, np_setitem_zeros_int in Hk by apply code_range.
    eexists; split; [exact Hk|]. right. exists m. now split.
Qed.

Lemma one_hot_code_tuple (m : motion) (k : Z) :
  0 <= k < 323 ->
  key_down (<[Z.to_nat (code m) := 1]> (np_zeros 323)) k
  = bool_decide (k = code m).
Proof.
  intros Hk. apply key_down_one_hot; try assumption.
  - unfold np_zeros. now rewrite length_insert, length_replicate.
  - apply one_hot_insert. pose proof (code_range m). lia.
  - apply code_range.
Qed.

(** C6: with the C key held down (or any other keyboard state), in every
    pass of the loop from the initial globals the keys tested are those of
    the generator, and their entry K_c is never set without entry K_q, whose
    test breaks the loop first: the C handler (and the X handler) is never
    run, so no end position is recorded. *)
Theorem C6_c_key_never_reaches_handler (fs : list frame) (f : frame) :
  key_down (keyboard f) K_c = true ->
  exists keys,
    (read_keys (run_frames initial_globals fs) f).2 = Some keys
    /\ writes_end keys = false
    /\ writes_start keys = false.
Proof.
  intros _.
  destruct (read_keys_tuple fs f) as (keys & Hk & [-> | (m & -> & _)]).
  - eexists; split; [exact Hk|]. unfold writes_end, writes_start.
    rewrite (key_down_all_ones K_q) by (unfold K_q; lia). now split.
  - eexists; split; [exact Hk|]. unfold writes_end, writes_start.
    rewrite !one_hot_code_tuple by (unfold K_q, K_c, K_x; lia).
    destruct m; split; reflexivity.
Qed.

Lemma C6_c_key_never_reaches_handler_witness :
  exists keys,
    (read_keys (run_frames initial_globals [])
       (Frame (<[99%nat := 1]> (replicate 323 0)) 0 false (RoomStr "hall")
          (Position 5 0 7))).2 = Some keys
    /\ writes_end keys = false
    /\ writes_start keys = false.
Proof.
  apply (C6_c_key_never_reaches_handler []
           (Frame (<[99%nat := 1]> (replicate 323 0)) 0 false (RoomStr "hall")
              (Position 5 0 7))).
  vm_compute. reflexivity.
Defined.

(** The pending action of the loop while no room id is NaN: 0 or a
    translation, with the rotation counter at 0. *)
Lemma read_keys_translation (g : globals) (f : frame) :
  current_room f <> RoomNaN ->
  (exists v, next_action g = Some v /\ v ∈ 0 :: translations) ->
  rotation_counter g = 0 ->
  (exists v, next_action (read_keys g f).1 = Some v /\ v ∈ translations)
  /\ rotation_counter (read_keys g f).1 = 0.
Proof.
  intros Hnan (v & Hv & Hin) Hrc.
  assert (Hv' : v = 0 \/ v = 119 \/ v = 115 \/ v = 97 \/ v = 100).
  { unfold translations in Hin. rewrite !elem_of_cons, elem_of_nil in Hin. tauto. }
  rewrite read_keys_step.
  unfold step, generate_key_press_random. cbn [fst].
  rewrite (choose_action_free g (loop_call f) (loop_call_free f Hnan)), Hv, Hrc.
  assert (c_has_collided (loop_call f) = has_collided f) as -> by reflexivity.
  assert (c_rotation (loop_call f) = false) as -> by reflexivity.
  assert (c_seed (loop_call f) = seed f) as -> by reflexivity.
  destruct (has_collided f).
  - destruct (get_random_action_cases false (seed f)) as [[? _]|[_ Ht]];
      [discriminate|].
    assert (get_random_action false (seed f) <> 275
            /\ get_random_action false (seed f) <> 276) as [N1 N2].
    { unfold translations in Ht. rewrite !elem_of_cons, elem_of_nil in Ht. lia. }
    cbn [next_action py_eqb].
    apply Z.eqb_neq in N1, N2. rewrite N1, N2. cbn.
    split; [eexists; split; [reflexivity | exact Ht] | reflexivity].
  - destruct Hv' as [->|[->|[->|[->| ->]]]]; cbn;
      (split; [eexists; split; [reflexivity | unfold translations; in_list]
              | reflexivity]).
Qed.

Lemma run_frames_translation (fs : list frame) (g : globals) :
  Forall (fun f => current_room f <> RoomNaN) fs ->
  (exists v, next_action g = Some v /\ v ∈ 0 :: translations) ->
  rotation_counter g = 0 ->
  (exists v, next_action (run_frames g fs) = Some v /\ v ∈ 0 :: translations)
  /\ rotation_counter (run_frames g fs) = 0.
Proof.
  intros Hf. revert g. induction Hf as [|f fs Hn _ IH]; intros g Hg Hrc;
    [now split|].
  change (run_frames g (f :: fs)) with (run_frames (read_keys g f).1 fs).
  destruct (read_keys_translation g f Hn Hg Hrc) as [(v & Hv & Hin) Hrc'].
  apply IH; [|exact Hrc'].
  exists v. split; [exact Hv|]. now apply elem_of_cons; right.
Qed.

(** The tuple of a pass while no room id is NaN: one-hot at a translation. *)
Lemma read_keys_translation_tuple (fs : list frame) (f : frame) :
  Forall (fun f => current_room f <> RoomNaN) (fs ++ [f]) ->
  exists m,
    (m = Forward \/ m = Backward \/ m = Left \/ m = Right)
    /\ (read_keys (run_frames initial_globals fs) f).2
       = Some (<[Z.to_nat (code m) := 1]> (np_zeros 323))
    /\ rotation_counter (read_keys (run_frames initial_globals fs) f).1 = 0.
Proof.
  intros [Hfs Hf]%Forall_app. rewrite Forall_singleton in Hf.
  set (g := run_frames initial_globals fs).
  destruct (run_frames_translation fs initial_globals Hfs) as [Hg Hrc].
  { exists 0. split; [reflexivity|in_list]. }
  { reflexivity. }
  fold g in Hg, Hrc.
  destruct (read_keys_translation g f Hf Hg Hrc) as [(v & Hv & Hin) Hrc'].
  assert (Hm : exists m, v = code m /\ (m = Forward \/ m = Backward
                                        \/ m = Left \/ m = Right)).
  { unfold translations in Hin. rewrite !elem_of_cons, elem_of_nil in Hin.
    destruct Hin as [->|[->|[->|[->|[]]]]];
      [exists Forward | exists Backward | exists Left | exists Right]; tauto. }
  destruct Hm as (m & -> & Hm). exists m. split; [exact Hm|].
  split; [|exact Hrc'].
  pose proof (step_keys g (loop_call f)) as Hk.
  rewrite <- read_keys_step in Hk.
  now rewrite Hv, np_setitem_zeros_int in Hk by apply code_range.
Qed.

(** A NaN room id (an empty room_id cell of positions.csv): the first pass
    takes the room-exit branch, the tuple has every entry set, and the quit
    test breaks the loop. *)
Lemma nan_room_quits (keyboard : list Z) (seed : Z) (hc : bool) (p : position) :
  breaks_on_q initial_globals (Frame keyboard seed hc RoomNaN p) = true.
Proof. reflexivity. Qed.

(** C7: with the Q key held down on the keyboard, a pass of the loop does
    not break: the keys tested by [if keys[K_q]: break] are those of the
    generator, not the keyboard state, and as long as no room id is NaN
    their Q entry is not set after any number of passes from the initial
    globals. *)
Theorem C7_q_key_is_not_read (fs : list frame) (f : frame) :
  key_down (keyboard f) K_q = true ->
  Forall (fun f => current_room f <> RoomNaN) (fs ++ [f]) ->
  breaks_on_q (run_frames initial_globals fs) f = false.
Proof.
  intros _ Hn.
  destruct (read_keys_translation_tuple fs f Hn) as (m & Hm & Hk & _).
  unfold breaks_on_q. rewrite Hk.
  rewrite one_hot_code_tuple by (unfold K_q; lia).
  destruct m; reflexivity.
Qed.

Lemma C7_q_key_is_not_read_witness :
  breaks_on_q (run_frames initial_globals [])
    (Frame (<[113%nat := 1]> (replicate 323 0)) 0 false (RoomStr "room")
       (Position 0 0 0))
  = false.
Proof.
  apply (C7_q_key_is_not_read []
           (Frame (<[113%nat := 1]> (replicate 323 0)) 0 false (RoomStr "room")
              (Position 0 0 0))).
  - vm_compute. reflexivity.
  - repeat constructor. discriminate.
Defined.

End LoopFacts.

Module DispatchExtra.
Import Geometry Keys KeysFacts Walk Rooms Loop Dispatch KeysExtra LoopFacts.

(** X10: when no replay is running, a tuple that reports exactly one action
    code drives the simulator action of that motion, and the tuple of the
    reversed code drives the opposite one (forwards/backwards,
    strafeLeft/strafeRight, turnLeft/turnRight); with a replay running the
    action is taken from the trace instead.  In both cases such a tuple
    never quits the loop, never asks for an observation, a next scene or a
    reset, and never triggers the X or C handler. *)
Theorem X10_one_hot_keys_drive_motion (keys : list Z) (m : motion) :
  length keys = 323%nat -> one_hot keys (Z.to_nat (code m)) ->
  chosen_action false keys = FromKeys (motion_action m)
  /\ chosen_action true keys = FromTrace
  /\ pass_branch keys = Act
  /\ writes_start keys = false /\ writes_end keys = false
  /\ forall keys',
       length keys' = 323%nat ->
       (exists b, reverse_action (Some (code m)) = Some b
                  /\ one_hot keys' (Z.to_nat b)) ->
       chosen_action false keys' = FromKeys (motion_action (opposite m)).
Proof.
  intros Hl Hk.
  assert (Hd : forall keys m, length keys = 323%nat ->
                 one_hot keys (Z.to_nat (code m)) ->
                 forall k, 0 <= k < 323 ->
                   key_down keys k = bool_decide (k = code m)).
  { intros ks mm Hls Hks k Hr.
    apply key_down_one_hot; try assumption. apply code_range. }
  assert (Hn : forall keys m, length keys = 323%nat ->
                 one_hot keys (Z.to_nat (code m)) ->
                 chosen_action false keys = FromKeys (motion_action m)).
  { intros ks mm Hls Hks. unfold chosen_action, action_name.
    rewrite !(Hd ks mm Hls Hks) by (unfold K_w, K_s, K_LEFT, K_RIGHT, K_a, K_d,
                                      K_UP, K_DOWN; lia).
    destruct mm; reflexivity. }
  split; [now apply Hn|]. split; [reflexivity|].
  unfold pass_branch, writes_start, writes_end.
  rewrite !(Hd keys m Hl Hk) by (unfold K_q, K_o, K_n, K_r, K_x, K_c; lia).
  split; [destruct m; reflexivity|].
  split; [destruct m; reflexivity|].
  split; [destruct m; reflexivity|].
  intros keys' Hl' (b & Hb & Hk'). rewrite reverse_action_code in Hb.
  injection Hb as <-. now apply Hn.
Qed.

Lemma X10_one_hot_keys_drive_motion_witness :
  chosen_action false (<[119%nat := 1]> (replicate 323 0)) = FromKeys "forwards".
Proof.
  destruct (X10_one_hot_keys_drive_motion (<[119%nat := 1]> (replicate 323 0))
              Forward) as (H & _).
  - reflexivity.
  - apply (one_hot_insert 323 119). lia.
  - exact H.
Defined.

(** X11: in the frame loop as written (keys from the generator with
    [rotation=False], the current room as both room arguments, empty
    [room_bounds]), with no replay running and no NaN room id, after any
    number of passes from the initial globals the keys of the next pass are
    one-hot at W, S, A or D: the agent is sent one of forwards, backwards,
    strafeLeft, strafeRight, never a turn, a look or idle; the rotation
    counter stays 0; and the pass never quits and never runs the X or C
    handler. *)
Theorem X11_loop_only_translates (fs : list frame) (f : frame) :
  Forall (fun f => current_room f <> RoomNaN) (fs ++ [f]) ->
  exists keys v name,
    (read_keys (run_frames initial_globals fs) f).2 = Some keys
    /\ v ∈ translations
    /\ one_hot keys (Z.to_nat v)
    /\ chosen_action false keys = FromKeys name
    /\ name ∈ ["forwards"; "backwards"; "strafeLeft"; "strafeRight"]
    /\ pass_branch keys = Act
    /\ writes_start keys = false /\ writes_end keys = false
    /\ rotation_counter (read_keys (run_frames initial_globals fs) f).1 = 0.
Proof.
  intros Hn.
  destruct (read_keys_translation_tuple fs f Hn) as (m & Hm & Hk & Hrc).
  exists (<[Z.to_nat (code m) := 1]> (np_zeros 323)), (code m), (motion_action m).
  split; [exact Hk|].
  split; [destruct Hm as [->|[->|[->| ->]]]; unfold translations; cbn; in_list|].
  split; [apply one_hot_insert; pose proof (code_range m); lia|].
  unfold chosen_action, action_name, pass_branch, writes_start, writes_end.
  rewrite !one_hot_code_tuple
    by (unfold K_w, K_s, K_LEFT, K_RIGHT, K_a, K_d, K_UP, K_DOWN,
          K_q, K_o, K_n, K_r, K_x, K_c; lia).
  destruct Hm as [->|[->|[->| ->]]]; cbn;
    (split; [reflexivity|]); (split; [in_list|]); repeat split; exact Hrc.
Qed.

Lemma X11_loop_only_translates_witness :
  exists keys v name,
    (read_keys (run_frames initial_globals [])
       (Frame [] 0 false (RoomStr "kitchen") (Position 1 0 1))).2 = Some keys
    /\ v ∈ translations
    /\ one_hot keys (Z.to_nat v)
    /\ chosen_action false keys = FromKeys name
    /\ name ∈ ["forwards"; "backwards"; "strafeLeft"; "strafeRight"]
    /\ pass_branch keys = Act
    /\ writes_start keys = false /\ writes_end keys = false
    /\ rotation_counter
         (read_keys (run_frames initial_globals [])
            (Frame [] 0 false (RoomStr "kitchen") (Position 1 0 1))).1 = 0.
Proof.
  apply (X11_loop_only_translates []
           (Frame [] 0 false (RoomStr "kitchen") (Position 1 0 1))).
  repeat constructor. discriminate.
Defined.

End DispatchExtra.

(* ===================================================================== *)
(** * Depth rescaling *)
(* ===================================================================== *)

Module DepthFacts.
Import Depth.


End DepthFacts.
